(** * A multi-server MCP client: registry, tool routing and query loop

    Shallow embedding of [client.py] (classes [ServerConnection] and
    [MCPClient]) and of [main.py].  The tool servers, the model API, the
    terminal and the process transport are external collaborators: they
    are modelled by an environment of oracles that answer every call from
    the history of the calls made so far, so that a theorem quantified
    over environments covers every behaviour of the collaborators,
    failures included. *)

From Stdlib Require Import ZArith Ascii String List.
From stdpp Require Import base decidable option list strings pretty gmap.

Local Open Scope Z_scope.

(** ** Python strings

    A [str] is modelled by the bytes of its UTF-8 encoding.  White
    space is all of Python's ([str.isspace]): the ASCII characters and
    the characters U+0085, U+00A0, U+1680, U+2000 to U+200A, U+2028,
    U+2029, U+202F, U+205F and U+3000, which take two or three bytes.
    [lower] maps the ASCII letters; the loop only compares its result
    with ASCII literals that have no [k] in them, and no other
    character is mapped by [str.lower] to a character of those
    literals, so that the comparisons are the ones of the code. *)
Module PyStr.

Definition nl : string := String "010"%char EmptyString.
Definition apostrophe : ascii := "'"%char.
Definition dquote : ascii := "034"%char.
Definition backslash : ascii := "\"%char.

(** The no-break space U+00A0. *)
Definition nbsp : string := String "194"%char (String "160"%char EmptyString).

(** [str.isspace] on one ASCII character: TAB, LF, VT, FF, CR, the four
    separators FS, GS, RS, US, and the space. *)
Definition is_space (c : ascii) : bool :=
  let n := N_of_ascii c in
  ((9 <=? n)%N && (n <=? 13)%N) || ((28 <=? n)%N && (n <=? 32)%N).

(** The two bytes of U+0085 or U+00A0. *)
Definition is_space2 (c1 c2 : ascii) : bool :=
  (N_of_ascii c1 =? 194)%N
  && ((N_of_ascii c2 =? 133)%N || (N_of_ascii c2 =? 160)%N).

(** The three bytes of U+1680, of U+2000 to U+200A, U+2028, U+2029,
    U+202F, of U+205F, or of U+3000. *)
Definition is_space3 (c1 c2 c3 : ascii) : bool :=
  let n1 := N_of_ascii c1 in
  let n2 := N_of_ascii c2 in
  let n3 := N_of_ascii c3 in
  ((n1 =? 225)%N && (n2 =? 154)%N && (n3 =? 128)%N)
  || ((n1 =? 226)%N && (n2 =? 128)%N
      && (((128 <=? n3)%N && (n3 <=? 138)%N)
          || (n3 =? 168)%N || (n3 =? 169)%N || (n3 =? 175)%N))
  || ((n1 =? 226)%N && (n2 =? 129)%N && (n3 =? 159)%N)
  || ((n1 =? 227)%N && (n2 =? 128)%N && (n3 =? 128)%N).

(** The number of bytes of the white-space character that the text
    starts with; 0 when it starts with none. *)
Definition space_width (s : string) : nat :=
  match s with
  | EmptyString => 0
  | String c1 s1 =>
      if is_space c1 then 1
      else
        match s1 with
        | EmptyString => 0
        | String c2 s2 =>
            if is_space2 c1 c2 then 2
            else
              match s2 with
              | EmptyString => 0
              | String c3 _ => if is_space3 c1 c2 c3 then 3 else 0
              end
        end
  end%nat.

Definition lower_char (c : ascii) : ascii :=
  let n := N_of_ascii c in
  if ((65 <=? n)%N && (n <=? 90)%N)%bool then ascii_of_N (n + 32) else c.

(** [s.lower()] *)
Fixpoint lower (s : string) : string :=
  match s with
  | EmptyString => EmptyString
  | String c s' => String (lower_char c) (lower s')
  end.

(** [s.lstrip()] *)
Fixpoint lstrip (s : string) : string :=
  match s with
  | EmptyString => EmptyString
  | String _ s1 =>
      match space_width s, s1 with
      | 1%nat, _ => lstrip s1
      | 2%nat, String _ s2 => lstrip s2
      | 3%nat, String _ (String _ s3) => lstrip s3
      | _, _ => s
      end
  end.

(** The text is made of white-space characters only. *)
Fixpoint all_space (s : string) : bool :=
  match s with
  | EmptyString => true
  | String _ s1 =>
      match space_width s, s1 with
      | 1%nat, _ => all_space s1
      | 2%nat, String _ s2 => all_space s2
      | 3%nat, String _ (String _ s3) => all_space s3
      | _, _ => false
      end
  end.

(** [s.rstrip()]: the text up to the point from which only white space
    follows. *)
Fixpoint rstrip (s : string) : string :=
  match s with
  | EmptyString => EmptyString
  | String c s' => if all_space s then EmptyString else String c (rstrip s')
  end.

(** [s.strip()] *)
Definition strip (s : string) : string := rstrip (lstrip s).

(** [s.split()] with no separator: the maximal runs of characters that
    are not white space, in order; never an empty word. *)
Fixpoint split (s : string) : list string :=
  match s with
  | EmptyString => []
  | String c s1 =>
      match space_width s, s1 with
      | 1%nat, _ => split s1
      | 2%nat, String _ s2 => split s2
      | 3%nat, String _ (String _ s3) => split s3
      | _, _ =>
          let r := split s1 in
          let word_ends :=
            match s1 with
            | EmptyString => true
            | String _ _ => negb (Nat.eqb (space_width s1) 0)
            end in
          match r with
          | w :: ws => if word_ends then String c EmptyString :: r else String c w :: ws
          | [] => [String c EmptyString]
          end
      end
  end.

(** [s.startswith(p)] and [s.endswith(p)] *)
Fixpoint startswith (s p : string) : bool :=
  match p, s with
  | EmptyString, _ => true
  | String a p', String b s' => Ascii.eqb a b && startswith s' p'
  | String _ _, EmptyString => false
  end.

Fixpoint endswith (s p : string) : bool :=
  String.eqb s p ||
  match s with
  | EmptyString => false
  | String _ s' => endswith s' p
  end.

(** [sep.join(l)] *)
Definition join (sep : string) (l : list string) : string :=
  String.concat sep l.

Fixpoint contains (c : ascii) (s : string) : bool :=
  match s with
  | EmptyString => false
  | String d s' => Ascii.eqb c d || contains c s'
  end.

Definition hex_digit (n : N) : ascii :=
  if (n <? 10)%N then ascii_of_N (48 + n) else ascii_of_N (87 + n).

(** One character of [repr(s)], for the quote [q] that was chosen. *)
Definition repr_char (q c : ascii) : string :=
  let n := N_of_ascii c in
  if (Ascii.eqb c q || Ascii.eqb c backslash)%bool
  then String backslash (String c EmptyString)
  else if (n =? 9)%N then "\t"
  else if (n =? 10)%N then "\n"
  else if (n =? 13)%N then "\r"
  else if ((n <? 32)%N || (n =? 127)%N)%bool
  then String backslash
         (String "x"%char
            (String (hex_digit (n / 16)) (String (hex_digit (n mod 16)) EmptyString)))
  else String c EmptyString.

Fixpoint repr_chars (q : ascii) (s : string) : string :=
  match s with
  | EmptyString => EmptyString
  | String c s' => repr_char q c +:+ repr_chars q s'
  end.

(** [repr(s)] for a [str]: single quotes, unless the text has a single
    quote and no double quote. *)
Definition repr (s : string) : string :=
  let q := if (contains apostrophe s && negb (contains dquote s))%bool
           then dquote else apostrophe in
  String q (repr_chars q s +:+ String q EmptyString).

End PyStr.

(** ** Structured values

    Tool arguments, input schemas and tool results are JSON-like Python
    objects.  Floating point numbers are left out. *)
#[warnings="-register-all"]
Inductive JSON : Type :=
  | JNull
  | JBool (b : bool)
  | JInt (z : Z)
  | JStr (s : string)
  | JList (l : list JSON)
  | JDict (items : list (string * JSON)).

(** [str(v)] / [repr(v)] of such an object, as an f-string prints it. *)
Fixpoint py_repr (v : JSON) : string :=
  match v with
  | JNull => "None"
  | JBool true => "True"
  | JBool false => "False"
  | JInt z => pretty z
  | JStr s => PyStr.repr s
  | JList l => "[" +:+ PyStr.join ", " (List.map py_repr l) +:+ "]"
  | JDict items =>
      "{" +:+ PyStr.join ", "
                (List.map (fun kv => PyStr.repr (fst kv) +:+ ": " +:+ py_repr (snd kv)) items)
          +:+ "}"
  end.

(** ** Insertion-ordered dictionaries

    [self.servers] is a Python [dict]: iteration follows insertion
    order, [d[k] = v] keeps the position of a key that is present and
    appends a new one, [del d[k]] keeps the order of the others. *)
Module PyDict.
Section Dict.
Context {V : Type}.

Definition keys (d : list (string * V)) : list string := d.*1.

(** [k in d] *)
Definition mem (k : string) (d : list (string * V)) : bool :=
  bool_decide (k ∈ keys d).

(** [d[k]], [None] standing for [KeyError] *)
Fixpoint get (k : string) (d : list (string * V)) : option V :=
  match d with
  | [] => None
  | (k', v) :: d' => if decide (k' = k) then Some v else get k d'
  end.

(** [d[k] = v] *)
Fixpoint set (k : string) (v : V) (d : list (string * V)) : list (string * V) :=
  match d with
  | [] => [(k, v)]
  | (k', v') :: d' =>
      if decide (k' = k) then (k', v) :: d' else (k', v') :: set k v d'
  end.

(** [del d[k]] for a key that is present *)
Fixpoint del (k : string) (d : list (string * V)) : list (string * V) :=
  match d with
  | [] => []
  | (k', v) :: d' => if decide (k' = k) then del k d' else (k', v) :: del k d'
  end.

(** mutation of the object stored under [k], if any *)
Fixpoint alter (f : V → V) (k : string) (d : list (string * V)) : list (string * V) :=
  match d with
  | [] => []
  | (k', v) :: d' =>
      if decide (k' = k) then (k', f v) :: d' else (k', v) :: alter f k d'
  end.

(** [next(iter(d.keys()))] on a dictionary that is not empty *)
Definition first_key (d : list (string * V)) : option string := head (keys d).
End Dict.
End PyDict.

(** ** Data model *)

(** [mcp.Tool] *)
Record Tool := mkTool {
  name : string;
  description : string;
  inputSchema : JSON
}.

(** External objects (streams, sessions) are known by a handle. *)
Definition Handle := nat.

(** [class ServerConnection] *)
Record ServerConnection := mkServerConnection {
  server_id : string;
  conn_session : Handle;
  conn_stdio : Handle;
  conn_write : Handle;
  tools : list Tool
}.

(** A context entered on [self.exit_stack]. *)
Inductive ExitContext :=
  | CtxStdioClient (stdio write : Handle)
  | CtxClientSession (session : Handle).

(** [class MCPClient]: the attributes set by [__init__], and [stdio] and
    [write], which [connect_to_server] creates. *)
Record MCPClient := mkMCPClient {
  session : option Handle;
  stdio : option Handle;
  write : option Handle;
  exit_stack : list ExitContext;
  servers : list (string * ServerConnection);
  current_server_id : option string
}.

(** [MCPClient.__init__] *)
Definition MCPClient_init : MCPClient :=
  {| session := None; stdio := None; write := None; exit_stack := [];
     servers := []; current_server_id := None |}.

(** A content block of a model response. *)
Inductive ContentBlock :=
  | TextBlock (text : string)
  | ToolUseBlock (id : string) (tool_name : string) (input : JSON).

(** The [content] of a message sent to the model. *)
Inductive MessageContent :=
  | ContentStr (s : string)
  | ContentBlocks (blocks : list ContentBlock)
  | ContentToolResult (tool_use_id : string) (result_content : JSON).

Record Message := mkMessage { role : string; content : MessageContent }.

(** An entry of the catalog given to the model. *)
Record ToolDict := mkToolDict {
  td_name : string;
  td_description : string;
  td_input_schema : JSON
}.

(** Python exceptions raised by the client or by a collaborator. *)
Inductive Exn :=
  | ValueError (msg : string)
  | AttributeError (msg : string)
  | IndexError (msg : string)
  | KeyError (key : string)
  | TypeError (msg : string)
  | ExternalError (msg : string).

(** [str(e)] *)
Definition exn_str (e : Exn) : string :=
  match e with
  | ValueError m | AttributeError m | IndexError m | TypeError m | ExternalError m => m
  | KeyError k => PyStr.repr k
  end.

Inductive Outcome (A : Type) :=
  | Ret (a : A)
  | Raise (e : Exn).
Arguments Ret {A} a.
Arguments Raise {A} e.

(** ** The external world *)

(** One call to a collaborator. *)
Inductive Event :=
  | EvStdioClient (command : string) (args : list string)
  | EvClientSession (stdio write : Handle)
  | EvInitialize (session : Handle)
  | EvListTools (session : Handle)
  | EvCallTool (session : Handle) (tool_name : string) (tool_args : JSON)
  | EvMessagesCreate (model : string) (max_tokens : Z)
      (messages : list Message) (tool_catalog : list ToolDict)
  | EvInput (prompt : string)
  | EvAclose (contexts : list ExitContext).

(** A collaborator answers with a value or fails with a message.  Every
    answer may depend on all the calls made before. *)
Record Env := mkEnv {
  env_stdio_client : list Event → string → list string → string + (Handle * Handle);
  env_client_session : list Event → Handle → Handle → string + Handle;
  env_initialize : list Event → Handle → string + unit;
  env_list_tools : list Event → Handle → string + list Tool;
  env_call_tool : list Event → Handle → string → JSON → string + JSON;
  env_messages_create :
    list Event → list Message → list ToolDict → string + list ContentBlock;
  env_input : list Event → string → string + string;
  env_aclose : list Event → list ExitContext → string + unit
}.

(** The client object, the calls made so far and the lines printed. *)
Record World := mkWorld {
  client : MCPClient;
  trace : list Event;
  stdout : list string
}.

Definition World_init : World :=
  {| client := MCPClient_init; trace := []; stdout := [] |}.

(** ** Computations: state, exceptions, external calls *)
Definition M (A : Type) : Type := Env → World → Outcome A * World.

Definition ret {A} (a : A) : M A := λ _ w, (Ret a, w).

Definition raise {A} (e : Exn) : M A := λ _ w, (Raise e, w).

Definition bind {A B} (m : M A) (k : A → M B) : M B :=
  λ env w,
    match m env w with
    | (Ret a, w') => k a env w'
    | (Raise e, w') => (Raise e, w')
    end.

Declare Scope py_scope.
Delimit Scope py_scope with py.
Notation "x <- m ;; k" := (bind m (λ x, k))
  (at level 100, m at next level, right associativity) : py_scope.
Notation "m ;;; k" := (bind m (λ _, k))
  (at level 100, right associativity) : py_scope.
Local Open Scope py_scope.

(** [try: body except Exception as e: handler(e)] *)
Definition try_except {A} (body : M A) (handler : Exn → M A) : M A :=
  λ env w,
    match body env w with
    | (Ret a, w') => (Ret a, w')
    | (Raise e, w') => handler e env w'
    end.

(** [try: body finally: final] *)
Definition try_finally {A} (body : M A) (final : M unit) : M A :=
  λ env w,
    match body env w with
    | (Ret a, w') =>
        match final env w' with
        | (Ret _, w'') => (Ret a, w'')
        | (Raise e, w'') => (Raise e, w'')
        end
    | (Raise e, w') =>
        match final env w' with
        | (Ret _, w'') => (Raise e, w'')
        | (Raise e', w'') => (Raise e', w'')
        end
    end.

Definition get_client : M MCPClient := λ _ w, (Ret (client w), w).

Definition set_client (c : MCPClient) : M unit :=
  λ _ w, (Ret tt, {| client := c; trace := trace w; stdout := stdout w |}).

Definition modify_client (f : MCPClient → MCPClient) : M unit :=
  c <- get_client ;; set_client (f c).

(** [print(line)] *)
Definition print (line : string) : M unit :=
  λ _ w, (Ret tt, {| client := client w; trace := trace w; stdout := stdout w ++ [line] |}).

(** A call to a collaborator: the answer is the oracle's, the call is
    added to the history, a failure is raised. *)
Definition external {A} (ev : Event) (oracle : Env → list Event → string + A) : M A :=
  λ env w,
    let w' := {| client := client w; trace := trace w ++ [ev]; stdout := stdout w |} in
    match oracle env (trace w) with
    | inr a => (Ret a, w')
    | inl msg => (Raise (ExternalError msg), w')
    end.

Definition set_session (h : Handle) (c : MCPClient) : MCPClient :=
  {| session := Some h; stdio := stdio c; write := write c;
     exit_stack := exit_stack c; servers := servers c;
     current_server_id := current_server_id c |}.

Definition set_stdio_write (r w : Handle) (c : MCPClient) : MCPClient :=
  {| session := session c; stdio := Some r; write := Some w;
     exit_stack := exit_stack c; servers := servers c;
     current_server_id := current_server_id c |}.

Definition push_context (x : ExitContext) (c : MCPClient) : MCPClient :=
  {| session := session c; stdio := stdio c; write := write c;
     exit_stack := exit_stack c ++ [x]; servers := servers c;
     current_server_id := current_server_id c |}.

Definition set_exit_stack (l : list ExitContext) (c : MCPClient) : MCPClient :=
  {| session := session c; stdio := stdio c; write := write c;
     exit_stack := l; servers := servers c;
     current_server_id := current_server_id c |}.

Definition set_servers (d : list (string * ServerConnection)) (c : MCPClient) : MCPClient :=
  {| session := session c; stdio := stdio c; write := write c;
     exit_stack := exit_stack c; servers := d;
     current_server_id := current_server_id c |}.

Definition set_current_server_id (o : option string) (c : MCPClient) : MCPClient :=
  {| session := session c; stdio := stdio c; write := write c;
     exit_stack := exit_stack c; servers := servers c;
     current_server_id := o |}.

Definition set_tools (ts : list Tool) (s : ServerConnection) : ServerConnection :=
  {| server_id := server_id s; conn_session := conn_session s;
     conn_stdio := conn_stdio s; conn_write := conn_write s; tools := ts |}.

(** ** [class ServerConnection] *)

(** [ServerConnection.list_tools]: the session is queried again and the
    answer replaces the cached list of the connection object, which is
    the object stored in [self.servers] under [key]. *)
Definition ServerConnection_list_tools (key : string) (self : ServerConnection)
  : M (list Tool) :=
  ts <- external (EvListTools (conn_session self))
          (λ env t, env_list_tools env t (conn_session self)) ;;
  modify_client (λ c, set_servers (PyDict.alter (set_tools ts) key (servers c)) c) ;;;
  ret ts.

(** [ServerConnection.call_tool] *)
Definition ServerConnection_call_tool (self : ServerConnection)
    (tool_name : string) (tool_args : JSON) : M JSON :=
  external (EvCallTool (conn_session self) tool_name tool_args)
    (λ env t, env_call_tool env t (conn_session self) tool_name tool_args).

(** ** [class MCPClient]: the registry *)

(** [MCPClient.connect_to_server]; it returns [None] on every path that
    does not raise. *)
Definition connect_to_server (server_id server_script_path : string) : M unit :=
  c <- get_client ;;
  if PyDict.mem server_id (servers c) then
    print ("Server with ID '" +:+ server_id +:+ "' already exists.")
  else
    let is_python := PyStr.endswith server_script_path ".py" in
    let is_js := PyStr.endswith server_script_path ".js" in
    if negb (is_python || is_js) then
      raise (ValueError "Server script must be a .py or .js file")
    else
      let command := if is_python then "python" else "node" in
      stdio_transport <-
        external (EvStdioClient command [server_script_path])
          (λ env t, env_stdio_client env t command [server_script_path]) ;;
      modify_client
        (push_context (CtxStdioClient (fst stdio_transport) (snd stdio_transport))) ;;;
      modify_client (set_stdio_write (fst stdio_transport) (snd stdio_transport)) ;;;
      s <- external (EvClientSession (fst stdio_transport) (snd stdio_transport))
             (λ env t,
                env_client_session env t (fst stdio_transport) (snd stdio_transport)) ;;
      modify_client (push_context (CtxClientSession s)) ;;;
      modify_client (set_session s) ;;;
      external (EvInitialize s) (λ env t, env_initialize env t s) ;;;
      let server_conn :=
        mkServerConnection server_id s (fst stdio_transport) (snd stdio_transport) [] in
      modify_client (λ c, set_servers (PyDict.set server_id server_conn (servers c)) c) ;;;
      c' <- get_client ;;
      match current_server_id c' with
      | None => modify_client (set_current_server_id (Some server_id))
      | Some _ => ret tt
      end ;;;
      tools <- ServerConnection_list_tools server_id server_conn ;;
      print (PyStr.nl +:+ "Connected to server with tools:" +:+ " "
             +:+ py_repr (JList (List.map (λ tool, JStr (name tool)) tools))).

(** [MCPClient.switch_server] *)
Definition switch_server (server_id : string) : M bool :=
  c <- get_client ;;
  if PyDict.mem server_id (servers c) then
    modify_client (set_current_server_id (Some server_id)) ;;;
    print ("Switched to server: " +:+ server_id) ;;;
    ret true
  else
    print ("Server '" +:+ server_id +:+ "' not found.") ;;;
    ret false.

Fixpoint print_all (lines : list string) : M unit :=
  match lines with
  | [] => ret tt
  | l :: ls => print l ;;; print_all ls
  end.

(** [MCPClient.list_servers] *)
Definition list_servers : M unit :=
  c <- get_client ;;
  match servers c with
  | [] => print "No servers connected"
  | _ :: _ =>
      print (PyStr.nl +:+ "Connected servers:") ;;;
      print_all
        (List.map
           (λ item : string * ServerConnection,
              let status :=
                if decide (Some (fst item) = current_server_id c)
                then "ACTIVE" else "CONNECTED" in
              let tool_names := JList (List.map (λ tool, JStr (name tool)) (tools (snd item))) in
              "  - " +:+ fst item +:+ " [" +:+ status +:+ ": Tools: "
                +:+ py_repr tool_names +:+ "]")
           (servers c))
  end.

(** [MCPClient.disconnected_server] *)
Definition disconnected_server (server_id : string) : M bool :=
  c <- get_client ;;
  if negb (PyDict.mem server_id (servers c)) then
    print ("Server '" +:+ server_id +:+ "' not found") ;;;
    ret false
  else
    modify_client (λ c, set_servers (PyDict.del server_id (servers c)) c) ;;;
    c' <- get_client ;;
    (if decide (Some server_id = current_server_id c') then
       match servers c' with
       | (k, _) :: _ => modify_client (set_current_server_id (Some k))
       | [] => modify_client (set_current_server_id None)
       end
     else ret tt) ;;;
    print ("Disconnected from server: " +:+ server_id) ;;;
    ret true.

(** [MCPClient.cleanup], that is [await self.exit_stack.aclose()]: the
    contexts are popped and left, the last one entered first.  The
    stack is empty afterwards whether or not an exit failed, and a
    failure is raised once all the contexts have been popped. *)
Definition cleanup : M unit :=
  c <- get_client ;;
  modify_client (set_exit_stack []) ;;;
  external (EvAclose (exit_stack c)) (λ env t, env_aclose env t (exit_stack c)).

(** ** [MCPClient.process_query] *)

(** [not self.current_server_id]: [None] and the empty string are false. *)
Definition is_falsy (o : option string) : bool :=
  match o with
  | None => true
  | Some EmptyString => true
  | Some (String _ _) => false
  end.

(** The dictionary [tool_dict] built for one tool (lines 136-140). *)
Definition tool_dict (server_id : string) (tool : Tool) : ToolDict :=
  {| td_name := name tool;
     td_description := "[Server: " +:+ server_id +:+ "] " +:+ description tool;
     td_input_schema := inputSchema tool |}.

(** The loop over [tools] (lines 135-142). *)
Fixpoint add_tools (server_id : string) (ts : list Tool)
    (all_tools : list ToolDict) (server_tool_map : gmap string string)
  : list ToolDict * gmap string string :=
  match ts with
  | [] => (all_tools, server_tool_map)
  | tool :: rest =>
      add_tools server_id rest (all_tools ++ [tool_dict server_id tool])
        (<[name tool := server_id]> server_tool_map)
  end.

(** The loop over [self.servers.items()] (lines 133-142). *)
Fixpoint build_catalog (items : list (string * ServerConnection))
    (all_tools : list ToolDict) (server_tool_map : gmap string string)
  : M (list ToolDict * gmap string string) :=
  match items with
  | [] => ret (all_tools, server_tool_map)
  | (server_id, server) :: rest =>
      ts <- ServerConnection_list_tools server_id server ;;
      let acc := add_tools server_id ts all_tools server_tool_map in
      build_catalog rest (fst acc) (snd acc)
  end.

(** An element of the list [messages]: a message of its own, or the
    dictionary [{"role": "assistant", "content": assistant_message_content}],
    whose content is the one list object that the loop keeps appending
    to. *)
Inductive MessageSlot :=
  | Owned (m : Message)
  | AssistantShared.

(** The local variables of the loop over the content blocks. *)
Record LoopState := mkLoopState {
  messages : list MessageSlot;
  final_text : list string;
  assistant_message_content : list ContentBlock
}.

(** What the model receives for [messages] at the time of a call. *)
Definition sent_messages (ls : LoopState) : list Message :=
  List.map
    (λ slot,
       match slot with
       | Owned m => m
       | AssistantShared =>
           {| role := "assistant";
              content := ContentBlocks (assistant_message_content ls) |}
       end)
    (messages ls).

(** [self.anthropic.messages.create(...)] *)
Definition messages_create (msgs : list Message) (all_tools : list ToolDict)
  : M (list ContentBlock) :=
  external (EvMessagesCreate "claude-3-5-sonnet-20241022" 1000 msgs all_tools)
    (λ env t, env_messages_create env t msgs all_tools).

(** [response.content[0].text] *)
Definition first_text (response : list ContentBlock) : M string :=
  match response with
  | [] => raise (IndexError "list index out of range")
  | TextBlock t :: _ => ret t
  | ToolUseBlock _ _ _ :: _ =>
      raise (AttributeError "'ToolUseBlock' object has no attribute 'text'")
  end.

(** The body of the loop over [response.content] (lines 157-199). *)
Definition process_content (all_tools : list ToolDict)
    (server_tool_map : gmap string string) (blk : ContentBlock) (ls : LoopState)
  : M LoopState :=
  match blk with
  | TextBlock t =>
      ret {| messages := messages ls;
             final_text := final_text ls ++ [t];
             assistant_message_content := assistant_message_content ls ++ [blk] |}
  | ToolUseBlock id tool_name tool_args =>
      match server_tool_map !! tool_name with
      | Some server_id =>
          c <- get_client ;;
          match PyDict.get server_id (servers c) with
          | None => raise (KeyError server_id)
          | Some server =>
              result <- ServerConnection_call_tool server tool_name tool_args ;;
              let ls1 :=
                {| messages :=
                     messages ls ++
                       [AssistantShared;
                        Owned {| role := "user";
                                 content := ContentToolResult id result |}];
                   final_text :=
                     final_text ls ++
                       ["[Calling tool " +:+ tool_name +:+ " on server " +:+ server_id
                        +:+ " with args " +:+ py_repr tool_args +:+ "]"];
                   assistant_message_content := assistant_message_content ls ++ [blk] |} in
              response <- messages_create (sent_messages ls1) all_tools ;;
              t <- first_text response ;;
              ret {| messages := messages ls1;
                     final_text := final_text ls1 ++ [t];
                     assistant_message_content := assistant_message_content ls1 |}
          end
      | None =>
          ret {| messages := messages ls;
                 final_text :=
                   final_text ls ++
                     ["Error: Tool " +:+ tool_name
                      +:+ " not found on any connected server."];
                 assistant_message_content := assistant_message_content ls |}
      end
  end.

(** [for content in response.content]: the blocks are those of the first
    response, whatever [response] is bound to later. *)
Fixpoint process_contents (all_tools : list ToolDict)
    (server_tool_map : gmap string string) (blocks : list ContentBlock) (ls : LoopState)
  : M LoopState :=
  match blocks with
  | [] => ret ls
  | blk :: rest =>
      ls' <- process_content all_tools server_tool_map blk ls ;;
      process_contents all_tools server_tool_map rest ls'
  end.

Definition no_active_server : string :=
  " No active server. Please to at least one server first".

Definition process_query (query : string) : M string :=
  c <- get_client ;;
  if is_falsy (current_server_id c) then ret no_active_server
  else
    let msgs := [Owned {| role := "user"; content := ContentStr query |}] in
    cat <- build_catalog (servers c) [] ∅ ;;
    let ls0 := {| messages := msgs; final_text := []; assistant_message_content := [] |} in
    response <- messages_create (sent_messages ls0) (fst cat) ;;
    ls <- process_contents (fst cat) (snd cat) response ls0 ;;
    ret (PyStr.join PyStr.nl (final_text ls)).

(** ** [MCPClient.chat_loop] *)

(** The methods that [class MCPClient] defines.  A call [self.attr(...)]
    first looks [attr] up; the data attributes of the object ([session],
    [exit_stack], [anthropic], [servers], [current_server_id], [stdio],
    [write]) are not callable and none of them is looked up by the loop. *)
Inductive Method :=
  | Meth_connect_to_server
  | Meth_switch_server
  | Meth_list_servers
  | Meth_disconnected_server
  | Meth_process_query
  | Meth_chat_loop
  | Meth_cleanup.

Definition MCPClient_methods : list (string * Method) :=
  [("connect_to_server", Meth_connect_to_server);
   ("switch_server", Meth_switch_server);
   ("list_servers", Meth_list_servers);
   ("disconnected_server", Meth_disconnected_server);
   ("process_query", Meth_process_query);
   ("chat_loop", Meth_chat_loop);
   ("cleanup", Meth_cleanup)].

(** [self.attr] for a method name *)
Definition getattr_method (attr : string) : M Method :=
  match PyDict.get attr MCPClient_methods with
  | Some m => ret m
  | None =>
      raise (AttributeError ("'MCPClient' object has no attribute '" +:+ attr +:+ "'"))
  end.

(** The call of a registry method found by [getattr_method], its result
    dropped, as the statements of the loop do. *)
Definition apply_method (m : Method) (args : list string) : M unit :=
  match m, args with
  | Meth_connect_to_server, [a; b] => connect_to_server a b
  | Meth_switch_server, [a] => switch_server a ;;; ret tt
  | Meth_list_servers, [] => list_servers
  | Meth_disconnected_server, [a] => disconnected_server a ;;; ret tt
  | Meth_cleanup, [] => cleanup
  | _, _ => raise (TypeError "wrong arguments")
  end.

(** [l[i]] *)
Definition item (l : list string) (i : nat) : M string :=
  match l !! i with
  | Some x => ret x
  | None => raise (IndexError "list index out of range")
  end.

Definition prompt : string := PyStr.nl +:+ "Query or command: ".

(** One turn of [while True]: [true] when the loop goes on, [false] on
    [break]. *)
Definition chat_iteration : M bool :=
  try_except
    (line <- external (EvInput prompt) (λ env t, env_input env t prompt) ;;
     let user_input := PyStr.strip line in
     if String.eqb (PyStr.lower user_input) "/quit" then ret false
     else
       (if PyStr.startswith user_input "/" then
          let parts := PyStr.split user_input in
          p0 <- item parts 0 ;;
          let command := PyStr.lower p0 in
          if (String.eqb command "/connect" && (3 <=? length parts)%nat)%bool then
            m <- getattr_method "connect_to_server" ;;
            server_id <- item parts 1 ;;
            script_path <- item parts 2 ;;
            apply_method m [server_id; script_path]
          else if (String.eqb command "/switch" && (2 <=? length parts)%nat)%bool then
            m <- getattr_method "switch_server" ;;
            p1 <- item parts 1 ;;
            apply_method m [p1]
          else if String.eqb command "/list" then
            m <- getattr_method "list_servers" ;;
            apply_method m []
          else if (String.eqb command "/disconnect" && (2 <=? length parts)%nat)%bool then
            m <- getattr_method "disconnect_server" ;;
            p1 <- item parts 1 ;;
            apply_method m [p1]
          else print "Invalid command format. Type /help for available commands."
        else
          response <- process_query user_input ;;
          print (PyStr.nl +:+ response)) ;;;
       ret true)
    (λ e, print (PyStr.nl +:+ "Error: " +:+ exn_str e) ;;; ret true).

(** At most [fuel] turns of the loop: [true] when it was left by
    [/quit], [false] when it is still running. *)
Fixpoint chat_turns (fuel : nat) : M bool :=
  match fuel with
  | O => ret false
  | S n =>
      continue <- chat_iteration ;;
      if continue : bool then chat_turns n else ret true
  end.

Definition chat_loop (fuel : nat) : M bool :=
  print (PyStr.nl +:+ "MCP Client Started!") ;;;
  print "Type your queries or use commands:" ;;;
  print "  /connect <server_id> <script_path> - Connect to a new server" ;;;
  print "  /switch <server_id> - Switch active server" ;;;
  print "  /list - List connected servers" ;;;
  print "  /disconnect <server_id> - Disconnect from a server" ;;;
  print "  /quit - Exit the client" ;;;
  chat_turns fuel.

(** ** [main.py] *)

(** [range(start, stop, step)] for a positive step *)
Definition py_range (start stop step : nat) : list nat :=
  List.map (λ k, start + k * step)%nat (seq 0 ((stop - start + step - 1) / step)%nat).

(** How the process ends: [sys.exit(code)], the return of [main], or an
    exception that nothing catches. *)
Inductive MainResult :=
  | SysExit (code : Z)
  | Returned (by_quit : bool)
  | Uncaught (e : Exn).

(** The loop [for i in range(1, len(sys.argv), 2)] *)
Fixpoint connect_loop (argv : list string) (indices : list nat) : M unit :=
  match indices with
  | [] => ret tt
  | i :: rest =>
      server_id <- item argv i ;;
      script_path <- item argv (i + 1) ;;
      connect_to_server server_id script_path ;;;
      connect_loop argv rest
  end.

Definition usage_line : string :=
  "Usage: python main.py <server_id> <path_to_server_script> [<server_id2> <path_to_server_script2> ...]".

Definition example_line : string :=
  "Example: python main.py calculator calculator_server.py search search_server.py".

Definition pairing_line : string :=
  "Error: Each server must have both an ID and a script path.".

Definition main (fuel : nat) (argv : list string) : Env → World → MainResult * World :=
  λ env w,
    if (length argv <? 3)%nat then
      (SysExit 1, snd ((print usage_line ;;; print example_line) env w))
    else if negb (length argv mod 2 =? 1)%nat then
      (SysExit 1, snd (print pairing_line env w))
    else
      match
        (set_client MCPClient_init ;;;
         try_finally
           (connect_loop argv (py_range 1 (length argv) 2) ;;; chat_loop fuel)
           cleanup) env w
      with
      | (Ret q, w') => (Returned q, w')
      | (Raise e, w') => (Uncaught e, w')
      end.

(** ** A scripted world for examples

    One tool server [calc] with the tool [add]; the model first asks for
    [add] with [{a: 2, b: 3}] and then, once it has a tool result,
    answers in plain text. *)
Module Calc.

Definition add_tool : Tool :=
  {| name := "add"; description := "Add two numbers";
     inputSchema := JDict [("type", JStr "object")] |}.

Definition add_args : JSON := JDict [("a", JInt 2); ("b", JInt 3)].

Definition has_model_call (t : list Event) : bool :=
  existsb (λ ev, match ev with EvMessagesCreate _ _ _ _ => true | _ => false end) t.

Definition env : Env :=
  {| env_stdio_client := λ t _ _, inr (length t, S (length t));
     env_client_session := λ t _ _, inr (length t);
     env_initialize := λ _ _, inr tt;
     env_list_tools := λ _ _, inr [add_tool];
     env_call_tool := λ _ _ _ _, inr (JInt 5);
     env_messages_create := λ t _ _,
       if has_model_call t then inr [TextBlock "The result is 5"]
       else inr [ToolUseBlock "toolu_1" "add" add_args];
     env_input := λ _ _, inr "/quit";
     env_aclose := λ _ _, inr tt |}.

(** The world after [connect_to_server("calc", "calc.py")], and the
    connection that it stores. *)
Definition world : World := snd (connect_to_server "calc" "calc.py" env World_init).

Definition conn : ServerConnection :=
  {| server_id := "calc"; conn_session := 1%nat; conn_stdio := 0%nat;
     conn_write := 1%nat;
     tools := [add_tool] |}.

End Calc.

(** ** Vocabulary of the properties and scripted worlds *)

(** [current_server_id] is [None] or a key of [servers]. *)
Definition registry_inv (c : MCPClient) : Prop :=
  match current_server_id c with
  | None => True
  | Some k => k ∈ PyDict.keys (servers c)
  end.

(** The operations of the client, as a caller issues them: the three
    that change the registry, and the two that read it. *)
Inductive Op :=
  | OpConnect (server_id server_script_path : string)
  | OpSwitch (server_id : string)
  | OpDisconnect (server_id : string)
  | OpList
  | OpQuery (query : string).

(** The world after one operation, whether it returned or raised. *)
Definition step (env : Env) (op : Op) (w : World) : World :=
  match op with
  | OpConnect a p => snd (connect_to_server a p env w)
  | OpSwitch a => snd (switch_server a env w)
  | OpDisconnect a => snd (disconnected_server a env w)
  | OpList => snd (list_servers env w)
  | OpQuery q => snd (process_query q env w)
  end.

(** The worlds after each operation of a sequence, in order. *)
Fixpoint states_after (env : Env) (ops : list Op) (w : World) : list World :=
  match ops with
  | [] => []
  | op :: rest => let w' := step env op w in w' :: states_after env rest w'
  end.

(** The world after the whole sequence. *)
Definition run_ops (env : Env) (ops : list Op) (w : World) : World :=
  fold_left (λ w op, step env op w) ops w.

(** Reading the registry: the keys and the current server stay. *)
Definition same_registry (c c' : MCPClient) : Prop :=
  PyDict.keys (servers c') = PyDict.keys (servers c) ∧
  current_server_id c' = current_server_id c.

(** Two servers, [calc] then [b], connected in the scripted world. *)
Definition two_servers : World :=
  run_ops Calc.env [OpConnect "calc" "calc.py"; OpConnect "b" "b.js"] World_init.

(** The status line of a connect on an id that is taken. *)
Definition duplicate_line (server_id : string) : string :=
  "Server with ID '" +:+ server_id +:+ "' already exists.".

(** What a caller of [connect_to_server] can tell a duplicate by: the
    method returns [None] wherever it returns, so an error reaches the
    caller only as an exception. *)
Definition duplicate_error_signalled (o : Outcome unit) : Prop :=
  ∃ e, o = Raise e.

(** The answer of the collaborators up to the handshake, for a connect
    that starts with the history [t]: the message of the first of the
    transport, the session and [initialize] that fails, if one does. *)
Definition handshake_failure (env : Env) (t : list Event) (command path : string)
  : option string :=
  match env_stdio_client env t command [path] with
  | inl msg => Some msg
  | inr (r, wr) =>
      let t1 := (t ++ [EvStdioClient command [path]])%list in
      match env_client_session env t1 r wr with
      | inl msg => Some msg
      | inr s =>
          match env_initialize env (t1 ++ [EvClientSession r wr])%list s with
          | inl msg => Some msg
          | inr _ => None
          end
      end
  end.

(** The interpreter chosen for a script (line 57). *)
Definition command_for (path : string) : string :=
  if PyStr.endswith path ".py" then "python" else "node".

(** A tool server whose transport works and whose tool list cannot be
    fetched. *)
Definition env_no_tool_list : Env :=
  {| env_stdio_client := env_stdio_client Calc.env;
     env_client_session := env_client_session Calc.env;
     env_initialize := env_initialize Calc.env;
     env_list_tools := λ _ _, inl "Connection closed";
     env_call_tool := env_call_tool Calc.env;
     env_messages_create := env_messages_create Calc.env;
     env_input := env_input Calc.env;
     env_aclose := env_aclose Calc.env |}.

(** A server that refuses the handshake. *)
Definition env_no_initialize : Env :=
  {| env_stdio_client := env_stdio_client Calc.env;
     env_client_session := env_client_session Calc.env;
     env_initialize := λ _ _, inl "initialize failed";
     env_list_tools := env_list_tools Calc.env;
     env_call_tool := env_call_tool Calc.env;
     env_messages_create := env_messages_create Calc.env;
     env_input := env_input Calc.env;
     env_aclose := env_aclose Calc.env |}.


(** The report of the call of [add] on [calc] (line 171). *)
Definition calling_line : string :=
  "[Calling tool add on server calc with args {'a': 2, 'b': 3}]".

(** Ids as the [/connect] command reads them have no space. *)
Definition no_space (s : string) : Prop := PyStr.contains " "%char s = false.

(** A tool named [x]. *)
Definition x_tool (d : string) : Tool :=
  {| name := "x"; description := d; inputSchema := JDict [] |}.

(** The first session lists [x] described by [c], any other session
    lists [x] described by [b] c]. *)
Definition env_collision : Env :=
  {| env_stdio_client := env_stdio_client Calc.env;
     env_client_session := env_client_session Calc.env;
     env_initialize := env_initialize Calc.env;
     env_list_tools := λ _ s,
       if (s =? 1)%nat then inr [x_tool "c"] else inr [x_tool "b] c"];
     env_call_tool := env_call_tool Calc.env;
     env_messages_create := env_messages_create Calc.env;
     env_input := env_input Calc.env;
     env_aclose := env_aclose Calc.env |}.

(** The registry after [main.py "a] b" first.py a second.py] has
    connected its two servers. *)
Definition collision_world : World :=
  run_ops env_collision [OpConnect "a] b" "first.py"; OpConnect "a" "second.py"]
    World_init.

(** The pairs [(server_id, script_path)] of a flat list of arguments. *)
Fixpoint pairs (l : list string) : list (string * string) :=
  match l with
  | a :: b :: rest => (a, b) :: pairs rest
  | _ => []
  end.

(** [connect_to_server] on each pair, first to last; a connect that
    raises ends the sequence. *)
Fixpoint connect_all (ps : list (string * string)) : M unit :=
  match ps with
  | [] => ret tt
  | (a, b) :: rest => connect_to_server a b ;;; connect_all rest
  end.

(** Every character of the text is an ASCII character that is not
    white space. *)
Fixpoint plain (s : string) : bool :=
  match s with
  | EmptyString => true
  | String c s' => (N_of_ascii c <? 128)%N && negb (PyStr.is_space c) && plain s'
  end.

(** Some character of the text is white space. *)
Fixpoint has_space (s : string) : bool :=
  match s with
  | EmptyString => false
  | String c s' => PyStr.is_space c || has_space s'
  end.

(** What the handler of the loop prints for the missing method. *)
Definition no_attribute_line : string :=
  PyStr.nl +:+ "Error: 'MCPClient' object has no attribute 'disconnect_server'".

(** The terminal of the scripted world, typing one line. *)
Definition env_typing (line : string) : Env :=
  {| env_stdio_client := env_stdio_client Calc.env;
     env_client_session := env_client_session Calc.env;
     env_initialize := env_initialize Calc.env;
     env_list_tools := env_list_tools Calc.env;
     env_call_tool := env_call_tool Calc.env;
     env_messages_create := env_messages_create Calc.env;
     env_input := λ _ _, inr line;
     env_aclose := env_aclose Calc.env |}.

(** ** Vocabulary of further properties *)

(** [current_server_id] is [None] exactly when no server is connected. *)
Definition registry_tight (c : MCPClient) : Prop :=
  current_server_id c = None ↔ servers c = [].

(** The line printed after a successful connect (line 77). *)
Definition connected_line (ts : list Tool) : string :=
  PyStr.nl +:+ "Connected to server with tools:" +:+ " "
  +:+ py_repr (JList (List.map (λ tool, JStr (name tool)) ts)).

(** The message of the [ValueError] of line 55. *)
Definition bad_script_message : string := "Server script must be a .py or .js file".

(** Two connection objects that differ at most in their cached tools. *)
Definition same_connection (c c' : ServerConnection) : Prop :=
  server_id c' = server_id c ∧ conn_session c' = conn_session c ∧
  conn_stdio c' = conn_stdio c ∧ conn_write c' = conn_write c.

(** Two clients that differ at most in the cached tools of their
    connections. *)
Definition caches_only (c c' : MCPClient) : Prop :=
  session c' = session c ∧ stdio c' = stdio c ∧ write c' = write c ∧
  exit_stack c' = exit_stack c ∧ current_server_id c' = current_server_id c ∧
  Forall2 (λ x y : string * ServerConnection, y.1 = x.1 ∧ same_connection x.2 y.2)
    (servers c) (servers c').

(** Nothing was printed and the calls made before are still the start
    of the history. *)
Definition quiet (w w' : World) : Prop :=
  stdout w' = stdout w ∧ trace w `prefix_of` trace w'.

(** The tool requests among the blocks of a response. *)
Definition is_tool_use (blk : ContentBlock) : bool :=
  match blk with
  | ToolUseBlock _ _ _ => true
  | TextBlock _ => false
  end.

Definition tool_requests (blocks : list ContentBlock) : nat :=
  length (List.filter is_tool_use blocks).

(** The calls of tools and the calls of the model in a history. *)
Definition is_call_tool (ev : Event) : bool :=
  match ev with
  | EvCallTool _ _ _ => true
  | _ => false
  end.

Definition is_model_call (ev : Event) : bool :=
  match ev with
  | EvMessagesCreate _ _ _ _ => true
  | _ => false
  end.

Definition tool_calls (t : list Event) : nat := length (List.filter is_call_tool t).

Definition model_calls (t : list Event) : nat := length (List.filter is_model_call t).

(** The first model call of a query. *)
Definition first_model_call (query : string) (catalog : list ToolDict) : Event :=
  EvMessagesCreate "claude-3-5-sonnet-20241022" 1000
    [{| role := "user"; content := ContentStr query |}] catalog.


(** A model that answers every call with two text blocks. *)
Definition env_text : Env :=
  {| env_stdio_client := env_stdio_client Calc.env;
     env_client_session := env_client_session Calc.env;
     env_initialize := env_initialize Calc.env;
     env_list_tools := env_list_tools Calc.env;
     env_call_tool := env_call_tool Calc.env;
     env_messages_create := λ _ _ _, inr [TextBlock "Hello"; TextBlock "world"];
     env_input := env_input Calc.env;
     env_aclose := env_aclose Calc.env |}.


(** The tool lists that the servers of [items] answer with, one after
    the other from the history [t]; [None] when a fetch fails. *)
Fixpoint tool_replies (env : Env) (t : list Event)
    (items : list (string * ServerConnection)) : option (list (string * list Tool)) :=
  match items with
  | [] => Some []
  | (k, conn) :: rest =>
      match env_list_tools env t (conn_session conn) with
      | inl _ => None
      | inr ts =>
          match tool_replies env (t ++ [EvListTools (conn_session conn)]) rest with
          | Some l => Some ((k, ts) :: l)
          | None => None
          end
      end
  end.

(** The catalog for such tool lists: every tool of every server, in
    order, under its prefixed description. *)
Definition catalog_of (replies : list (string * list Tool)) : list ToolDict :=
  concat (List.map (λ item : string * list Tool, List.map (tool_dict item.1) item.2)
            replies).


(** The test of the chain of [if]/[elif] of the loop (lines 225-234):
    the command and the number of parts select a branch other than the
    last [else]. *)
Definition dispatches (command : string) (n : nat) : bool :=
  (String.eqb command "/connect" && (3 <=? n)%nat)
  || (String.eqb command "/switch" && (2 <=? n)%nat)
  || String.eqb command "/list"
  || (String.eqb command "/disconnect" && (2 <=? n)%nat).

(** What the loop prints for a command that no branch takes. *)
Definition invalid_command_line : string :=
  "Invalid command format. Type /help for available commands.".

(** What the handler of the loop prints for an exception. *)
Definition error_line (e : Exn) : string := PyStr.nl +:+ "Error: " +:+ exn_str e.

(** The world once the line of a turn has been read. *)
Definition after_input (w : World) : World :=
  {| client := client w; trace := trace w ++ [EvInput prompt]; stdout := stdout w |}.

(** The world with one more line printed. *)
Definition with_line (w : World) (line : string) : World :=
  {| client := client w; trace := trace w; stdout := stdout w ++ [line] |}.

(** A terminal at the end of its input. *)
Definition env_eof : Env :=
  {| env_stdio_client := env_stdio_client Calc.env;
     env_client_session := env_client_session Calc.env;
     env_initialize := env_initialize Calc.env;
     env_list_tools := env_list_tools Calc.env;
     env_call_tool := env_call_tool Calc.env;
     env_messages_create := env_messages_create Calc.env;
     env_input := λ _ _, inl "EOF when reading a line";
     env_aclose := env_aclose Calc.env |}.

(** The world with another current server. *)
Definition with_current (o : option string) (w : World) : World :=
  {| client := set_current_server_id o (client w); trace := trace w; stdout := stdout w |}.

(** The world after [cleanup]: the exit stack is empty and the exit of
    its contexts is one more external call. *)
Definition cleaned (w : World) : World :=
  {| client := set_exit_stack [] (client w);
     trace := trace w ++ [EvAclose (exit_stack (client w))];
     stdout := stdout w |}.

(** The world in which [main] builds its client. *)
Definition fresh_client (w : World) : World :=
  {| client := MCPClient_init; trace := trace w; stdout := stdout w |}.












(** * Properties *)

(** ** Python strings and values on examples *)

Example py_repr_args :
  py_repr (JDict [("a", JInt 2); ("b", JInt 3)]) = "{'a': 2, 'b': 3}".
Proof. vm_compute. reflexivity. Qed.

Example py_repr_names :
  py_repr (JList [JStr "add"; JStr "it's"]) =
  "['add', " +:+ String PyStr.dquote ("it's" +:+ String PyStr.dquote "]").
Proof. vm_compute. reflexivity. Qed.

Example split_command :
  PyStr.split (PyStr.strip "  /Connect  calc   calc.py ") = ["/Connect"; "calc"; "calc.py"].
Proof. vm_compute. reflexivity. Qed.

(** ** Dictionaries *)
Section DictFacts.
Context {V : Type}.
Implicit Types (d : list (string * V)) (k : string).

Lemma mem_true k d : PyDict.mem k d = true ↔ k ∈ PyDict.keys d.
Proof. unfold PyDict.mem. apply bool_decide_eq_true. Qed.

Lemma mem_false k d : PyDict.mem k d = false ↔ k ∉ PyDict.keys d.
Proof. unfold PyDict.mem. apply bool_decide_eq_false. Qed.

Lemma keys_alter (f : V → V) k d : PyDict.keys (PyDict.alter f k d) = PyDict.keys d.
Proof.
  induction d as [|[k' v] d IH]; simpl; [done|].
  case_decide; simpl; [done|]. f_equal. apply IH.
Qed.

Lemma keys_set_present k (v : V) d :
  k ∈ PyDict.keys d → PyDict.keys (PyDict.set k v d) = PyDict.keys d.
Proof.
  induction d as [|[k' v'] d IH]; simpl; intros Hin.
  - by apply elem_of_nil in Hin.
  - case_decide; simpl; [done|].
    apply elem_of_cons in Hin as [->|Hin]; [done|].
    f_equal. by apply IH.
Qed.

Lemma keys_set_fresh k (v : V) d :
  k ∉ PyDict.keys d → PyDict.keys (PyDict.set k v d) = (PyDict.keys d ++ [k])%list.
Proof.
  induction d as [|[k' v'] d IH]; simpl; intros Hin; [done|].
  apply not_elem_of_cons in Hin as [Hne Hin].
  case_decide; simpl; [congruence|].
  f_equal. by apply IH.
Qed.

Lemma elem_of_keys_set k k' (v : V) d :
  k' ∈ PyDict.keys (PyDict.set k v d) ↔ k' = k ∨ k' ∈ PyDict.keys d.
Proof.
  destruct (decide (k ∈ PyDict.keys d)) as [Hin|Hin].
  - rewrite keys_set_present by done. split; [auto|]. by intros [->|?].
  - rewrite keys_set_fresh by done. rewrite elem_of_app, list_elem_of_singleton. tauto.
Qed.

Lemma get_set_eq k (v : V) d : PyDict.get k (PyDict.set k v d) = Some v.
Proof.
  induction d as [|[k' v'] d IH]; simpl.
  - by rewrite decide_True.
  - case_decide; simpl; [by rewrite decide_True|by rewrite decide_False].
Qed.

Lemma elem_of_keys_del k k' d :
  k' ∈ PyDict.keys (PyDict.del k d) ↔ k' ∈ PyDict.keys d ∧ k' ≠ k.
Proof.
  induction d as [|[k0 v] d IH]; simpl.
  - split; [intros H; by apply elem_of_nil in H|intros [H _]; by apply elem_of_nil in H].
  - case_decide as Hk; simpl; rewrite ?elem_of_cons; unfold PyDict.keys in *.
    + subst k0. rewrite IH. split; [tauto|]. intros [[?|?] ?]; [congruence|tauto].
    + rewrite IH. split; [intros [->|[? ?]]; auto|intros [[?|?] ?]; auto].
Qed.

Lemma del_absent k d : k ∉ PyDict.keys d → PyDict.del k d = d.
Proof.
  induction d as [|[k0 v] d IH]; simpl; [done|]. intros Hin.
  apply not_elem_of_cons in Hin as [Hne Hin].
  rewrite decide_False by done. f_equal. by apply IH.
Qed.

(** The entries that stay keep their order and their values. *)
Lemma del_filter k d :
  PyDict.del k d = List.filter (λ kv, negb (bool_decide (kv.1 = k))) d.
Proof.
  induction d as [|[k0 v] d IH]; simpl; [done|].
  case_decide; [rewrite bool_decide_eq_true_2|rewrite bool_decide_eq_false_2];
    simpl; congruence.
Qed.

Lemma get_del_ne k k' d : k' ≠ k → PyDict.get k' (PyDict.del k d) = PyDict.get k' d.
Proof.
  intros Hne. induction d as [|[k0 v] d IH]; simpl; [done|].
  case_decide; simpl.
  - subst k0. by rewrite decide_False by congruence.
  - case_decide; [done|apply IH].
Qed.
End DictFacts.

(** ** The registry invariant *)

Ltac unfold_M :=
  unfold bind, ret, raise, get_client, set_client, modify_client, print, external,
    try_except in *.

Lemma connect_to_server_inv env a p w :
  registry_inv (client w) → registry_inv (client (snd (connect_to_server a p env w))).
Proof.
  intros Hinv. unfold connect_to_server, ServerConnection_list_tools.
  unfold_M. unfold registry_inv in *. simpl.
  destruct (PyDict.mem a (servers (client w))) eqn:Hmem; simpl; [done|].
  apply mem_false in Hmem.
  destruct (negb _); simpl; [done|].
  destruct (env_stdio_client _ _ _ _) as [?|[r wr]]; simpl; [done|].
  destruct (env_client_session _ _ _ _) as [?|s]; simpl; [done|].
  destruct (env_initialize _ _ _) as [?|[]]; simpl; [done|].
  destruct (current_server_id (client w)) as [k|] eqn:Hcur; simpl;
    destruct (env_list_tools _ _ _) as [?|ts]; simpl;
    rewrite ?Hcur; simpl; rewrite ?keys_alter; apply elem_of_keys_set; auto.
Qed.

Lemma switch_server_inv env a w :
  registry_inv (client w) → registry_inv (client (snd (switch_server a env w))).
Proof.
  intros Hinv. unfold switch_server. unfold_M. unfold registry_inv in *. simpl.
  destruct (PyDict.mem a (servers (client w))) eqn:Hmem; simpl; [|done].
  by apply mem_true.
Qed.

Lemma disconnected_server_inv env a w :
  registry_inv (client w) → registry_inv (client (snd (disconnected_server a env w))).
Proof.
  intros Hinv. unfold disconnected_server. unfold_M. unfold registry_inv in *. simpl.
  destruct (PyDict.mem a (servers (client w))) eqn:Hmem; simpl; [|done].
  case_decide as Hcur; simpl.
  - destruct (PyDict.del a (servers (client w))) as [|[k v] d] eqn:Hdel; simpl; [done|].
    apply list_elem_of_here.
  - destruct (current_server_id (client w)) as [k|]; [|done].
    apply elem_of_keys_del. split; [done|congruence].
Qed.

Lemma same_registry_inv c c' : same_registry c c' → registry_inv c → registry_inv c'.
Proof. unfold same_registry, registry_inv. by intros [-> ->]. Qed.

Lemma same_registry_trans c1 c2 c3 :
  same_registry c1 c2 → same_registry c2 c3 → same_registry c1 c3.
Proof. unfold same_registry. intros [H1 H2] [H3 H4]. split; congruence. Qed.

Lemma list_tools_same_registry key conn env w :
  same_registry (client w) (client (snd (ServerConnection_list_tools key conn env w))).
Proof.
  unfold ServerConnection_list_tools, same_registry. unfold_M.
  destruct (env_list_tools _ _ _) as [msg|ts]; simpl; [done|].
  by rewrite keys_alter.
Qed.

Lemma build_catalog_same_registry items all_tools (m : gmap string string) env w :
  same_registry (client w) (client (snd (build_catalog items all_tools m env w))).
Proof.
  revert all_tools m w. induction items as [|[k conn] items IH]; intros all_tools m w.
  - by split.
  - cbn [build_catalog]. unfold bind.
    pose proof (list_tools_same_registry k conn env w) as Hone.
    destruct (ServerConnection_list_tools k conn env w) as [[ts|e] w1]; simpl in *; [|done].
    eapply same_registry_trans; [exact Hone|apply IH].
Qed.

Lemma process_content_client all_tools (m : gmap string string) blk ls env w :
  client (snd (process_content all_tools m blk ls env w)) = client w.
Proof.
  unfold process_content, ServerConnection_call_tool, messages_create, first_text.
  destruct blk as [t|id tool_name tool_args]; [done|].
  destruct (m !! tool_name) as [server_id|]; [|done].
  unfold_M. simpl.
  destruct (PyDict.get server_id (servers (client w))) as [server|]; [|done].
  destruct (env_call_tool _ _ _ _ _) as [msg|result]; simpl; [done|].
  destruct (env_messages_create _ _ _ _) as [msg|[|[t|? ? ?] response]]; done.
Qed.

Lemma process_contents_client all_tools (m : gmap string string) blocks ls env w :
  client (snd (process_contents all_tools m blocks ls env w)) = client w.
Proof.
  revert ls w. induction blocks as [|blk blocks IH]; intros ls w; [done|].
  cbn [process_contents]. unfold bind.
  pose proof (process_content_client all_tools m blk ls env w) as Hone.
  destruct (process_content all_tools m blk ls env w) as [[ls'|e] w1]; simpl in *; [|done].
  by rewrite IH.
Qed.

Lemma process_query_same_registry query env w :
  same_registry (client w) (client (snd (process_query query env w))).
Proof.
  unfold process_query, messages_create. unfold_M.
  destruct (is_falsy _); [by split|].
  pose proof (build_catalog_same_registry (servers (client w)) [] ∅ env w) as Hcat.
  destruct (build_catalog _ _ _ env w) as [[cat|e] w1]; simpl in *; [|done].
  destruct (env_messages_create _ _ _ _) as [msg|response]; simpl; [done|].
  match goal with
  | |- context [process_contents ?a ?b ?c ?d ?e ?f] =>
      pose proof (process_contents_client a b c d e f) as Hloop;
      destruct (process_contents a b c d e f) as [[ls|e'] w2]
  end; simpl in *; destruct Hcat as [Hkeys Hcur]; split; congruence.
Qed.

Lemma print_all_client lines env w : client (snd (print_all lines env w)) = client w.
Proof.
  revert w. induction lines as [|l lines IH]; intros w; [done|].
  cbn [print_all]. unfold bind, print. simpl. by rewrite IH.
Qed.

Lemma list_servers_client env w : client (snd (list_servers env w)) = client w.
Proof.
  unfold list_servers. unfold bind, get_client.
  destruct (servers (client w)); [done|].
  unfold print at 1. cbn beta iota. by rewrite print_all_client.
Qed.

Lemma step_inv env op w :
  registry_inv (client w) → registry_inv (client (step env op w)).
Proof.
  destruct op; simpl;
    auto using connect_to_server_inv, switch_server_inv, disconnected_server_inv.
  - by rewrite list_servers_client.
  - apply same_registry_inv, process_query_same_registry.
Qed.

Lemma states_after_inv env ops w :
  registry_inv (client w) →
  Forall (λ w', registry_inv (client w')) (states_after env ops w).
Proof.
  revert w. induction ops as [|op ops IH]; intros w Hinv; simpl.
  - constructor.
  - constructor; [|apply IH]; by apply step_inv.
Qed.

Lemma run_ops_inv env ops w :
  registry_inv (client w) → registry_inv (client (run_ops env ops w)).
Proof.
  unfold run_ops. revert w. induction ops as [|op ops IH]; intros w Hinv; simpl; [done|].
  apply IH. by apply step_inv.
Qed.

(** C4. Whatever the collaborators answer, after each operation of any
    finite sequence of connect, switch and disconnect operations run
    from the fresh client (listings and queries may come in between),
    [current_server_id] is [None] or a key of [servers]. *)
Theorem current_server_id_in_registry (env : Env) (ops : list Op) :
  Forall (λ w, current_server_id (client w) = None ∨
               ∃ k, current_server_id (client w) = Some k ∧
                    k ∈ PyDict.keys (servers (client w)))
    (states_after env ops World_init).
Proof.
  eapply Forall_impl; [apply states_after_inv; exact I|].
  intros w Hinv. unfold registry_inv in Hinv.
  destruct (current_server_id (client w)) as [k|]; [right; eauto|by left].
Qed.

(** ** Disconnecting *)

(** C7. [disconnected_server] on a key of the registry returns [True] and
    deletes that entry, the other entries keeping their order and their
    connections; when the entry was the current one, the current server
    becomes a remaining key if there is one (the only one, if exactly one
    remains); when no entry remains, [current_server_id] is [None].  On a
    key that is absent it returns [False] and the client is unchanged. *)
Theorem disconnected_server_spec (env : Env) (w : World) (a : string)
    (Hinv : registry_inv (client w)) :
  let r := disconnected_server a env w in
  let c := client w in
  let c' := client (snd r) in
  (a ∈ PyDict.keys (servers c) →
     fst r = Ret true ∧
     servers c' = PyDict.del a (servers c) ∧
     (a ∉ PyDict.keys (servers c')) ∧
     (∀ k, k ≠ a → PyDict.get k (servers c') = PyDict.get k (servers c)) ∧
     (current_server_id c = Some a →
        (servers c' ≠ [] →
           ∃ k, current_server_id c' = Some k ∧ k ∈ PyDict.keys (servers c')) ∧
        (∀ k, PyDict.keys (servers c') = [k] → current_server_id c' = Some k)) ∧
     (current_server_id c ≠ Some a → current_server_id c' = current_server_id c) ∧
     (servers c' = [] → current_server_id c' = None) ∧
     trace (snd r) = trace w) ∧
  (a ∉ PyDict.keys (servers c) →
     fst r = Ret false ∧ c' = c ∧ trace (snd r) = trace w).
Proof.
  unfold disconnected_server. unfold_M. simpl. split.
  - intros Hin. apply mem_true in Hin as Hmem. rewrite Hmem. simpl.
    assert (Hgone : a ∉ PyDict.keys (PyDict.del a (servers (client w)))).
    { rewrite elem_of_keys_del. tauto. }
    assert (Hget : ∀ k, k ≠ a →
              PyDict.get k (PyDict.del a (servers (client w)))
              = PyDict.get k (servers (client w))).
    { intros k Hk. by apply get_del_ne. }
    case_decide as Hcur; simpl.
    + revert Hgone Hget.
      generalize (PyDict.del a (servers (client w))). intros [|[k v] d] Hgone Hget; simpl.
      * repeat split; try done; congruence.
      * repeat split; try done; try congruence.
        intros _. exists k. split; [done|]. apply list_elem_of_here.
    + repeat split; try done; try congruence.
      intros Hempty. unfold registry_inv in Hinv.
      destruct (current_server_id (client w)) as [k|]; [|done].
      assert (Hk : k ∈ PyDict.keys (PyDict.del a (servers (client w)))).
      { apply elem_of_keys_del. split; [done|congruence]. }
      rewrite Hempty in Hk. by apply elem_of_nil in Hk.
  - intros Hin. apply mem_false in Hin as Hmem. rewrite Hmem. simpl.
    by destruct (client w).
Qed.

Lemma disconnected_server_spec_witness :
  registry_inv (client two_servers) ∧
  fst (disconnected_server "calc" Calc.env two_servers) = Ret true ∧
  current_server_id (client (snd (disconnected_server "calc" Calc.env two_servers)))
  = Some "b".
Proof.
  assert (Hinv : registry_inv (client two_servers)).
  { apply run_ops_inv. exact I. }
  split; [exact Hinv|].
  destruct (disconnected_server_spec Calc.env two_servers "calc" Hinv) as [Hpresent _].
  destruct Hpresent as (Hret & _ & _ & _ & Hcur & _).
  { vm_compute. apply list_elem_of_here. }
  split; [exact Hret|].
  apply Hcur; reflexivity.
Defined.

(** ** Connecting *)

(** C8, as amended.  [connect_to_server] on a key of the registry calls
    no collaborator and leaves the whole client as it is (the entry, its
    cached tools and handles, and [current_server_id]); it prints the
    line [duplicate_line] and returns [None] without raising. *)
Theorem connect_to_server_duplicate (env : Env) (w : World) (a p : string) :
  a ∈ PyDict.keys (servers (client w)) →
  connect_to_server a p env w =
  (Ret tt,
   {| client := client w; trace := trace w;
      stdout := stdout w ++ [duplicate_line a] |}).
Proof.
  intros Hin. apply mem_true in Hin.
  unfold connect_to_server. unfold_M. simpl. by rewrite Hin.
Qed.

Lemma connect_to_server_duplicate_witness :
  ("calc" ∈ PyDict.keys (servers (client Calc.world))) ∧
  client (snd (connect_to_server "calc" "other.py" Calc.env Calc.world))
  = client Calc.world.
Proof.
  assert (Hin : "calc" ∈ PyDict.keys (servers (client Calc.world))).
  { vm_compute. apply list_elem_of_here. }
  split; [exact Hin|].
  by rewrite (connect_to_server_duplicate Calc.env Calc.world "calc" "other.py" Hin).
Defined.

(** The duplicate connect gives its caller what the first, successful
    connect gave: [None], and no exception. *)
Lemma duplicate_connect_returns_none :
  fst (connect_to_server "calc" "calc.py" Calc.env Calc.world)
  = fst (connect_to_server "calc" "calc.py" Calc.env World_init) ∧
  ¬ duplicate_error_signalled
      (fst (connect_to_server "calc" "calc.py" Calc.env Calc.world)).
Proof.
  split; [vm_compute; reflexivity|].
  intros [e He]. vm_compute in He. discriminate.
Qed.

(** C3, as amended.  A connect on a fresh id whose transport, session
    start or [initialize] fails raises that failure and leaves [servers]
    and [current_server_id] as they were. *)
Theorem connect_to_server_handshake_failure
    (env : Env) (w : World) (a p msg : string) :
  a ∉ PyDict.keys (servers (client w)) →
  (PyStr.endswith p ".py" || PyStr.endswith p ".js")%bool = true →
  handshake_failure env (trace w) (command_for p) p = Some msg →
  let r := connect_to_server a p env w in
  fst r = Raise (ExternalError msg) ∧
  servers (client (snd r)) = servers (client w) ∧
  current_server_id (client (snd r)) = current_server_id (client w).
Proof.
  intros Hfresh Hext Hfail. apply mem_false in Hfresh.
  unfold connect_to_server, handshake_failure, command_for in *.
  unfold_M. simpl. rewrite Hfresh, Hext. simpl.
  destruct (env_stdio_client _ _ _ _) as [m|[r wr]]; simpl.
  { by inversion Hfail. }
  destruct (env_client_session _ _ _ _) as [m|s]; simpl.
  { by inversion Hfail. }
  destruct (env_initialize _ _ _) as [m|[]]; simpl.
  { by inversion Hfail. }
  discriminate.
Qed.

Lemma connect_to_server_handshake_failure_witness :
  fst (connect_to_server "calc" "calc.py" env_no_initialize World_init)
  = Raise (ExternalError "initialize failed") ∧
  servers (client (snd (connect_to_server "calc" "calc.py" env_no_initialize World_init)))
  = [].
Proof.
  destruct (connect_to_server_handshake_failure env_no_initialize World_init
              "calc" "calc.py" "initialize failed") as (Hret & Hservers & _).
  - vm_compute. apply not_elem_of_nil.
  - vm_compute. reflexivity.
  - vm_compute. reflexivity.
  - split; [exact Hret | exact Hservers].
Defined.

(** When it is the first fetch of the tool list that fails, the entry
    has been stored and made current before the failure is raised. *)
Lemma connect_to_server_not_atomic :
  let r := connect_to_server "calc" "calc.py" env_no_tool_list World_init in
  ("calc" ∉ PyDict.keys (servers (client World_init))) ∧
  fst r = Raise (ExternalError "Connection closed") ∧
  ¬ (servers (client (snd r)) = servers (client World_init) ∧
     current_server_id (client (snd r)) = current_server_id (client World_init)).
Proof.
  split; [apply not_elem_of_nil|].
  split; [vm_compute; reflexivity|].
  intros [Hservers _]. vm_compute in Hservers. discriminate.
Qed.

(** ** Queries without a server *)

(** C6. In every state that the operations of the client can reach
    from the fresh client, if the registry is empty then a query returns
    the no-active-server message at once: no collaborator is called,
    nothing is printed and the client is unchanged. *)
Theorem process_query_empty_registry (env : Env) (ops : list Op) (query : string) :
  let w := run_ops env ops World_init in
  servers (client w) = [] →
  process_query query env w = (Ret no_active_server, w).
Proof.
  intros w Hempty.
  assert (Hinv : registry_inv (client w)) by (apply run_ops_inv; exact I).
  unfold registry_inv in Hinv. unfold process_query. unfold_M.
  destruct (current_server_id (client w)) as [k|] eqn:Hcur; simpl; [|done].
  rewrite Hempty in Hinv. by apply elem_of_nil in Hinv.
Qed.

Lemma process_query_empty_registry_witness :
  servers (client (run_ops Calc.env [OpConnect "calc" "calc.py"; OpDisconnect "calc"]
                     World_init)) = [] ∧
  fst (process_query "hello" Calc.env
         (run_ops Calc.env [OpConnect "calc" "calc.py"; OpDisconnect "calc"] World_init))
  = Ret " No active server. Please to at least one server first".
Proof.
  assert (Hempty :
    servers (client (run_ops Calc.env [OpConnect "calc" "calc.py"; OpDisconnect "calc"]
                       World_init)) = []).
  { vm_compute. reflexivity. }
  split; [exact Hempty|].
  by rewrite (process_query_empty_registry Calc.env
                [OpConnect "calc" "calc.py"; OpDisconnect "calc"] "hello" Hempty).
Defined.

(** ** Tool requests *)

Lemma process_contents_cons all_tools (server_tool_map : gmap string string)
    blk rest ls env w :
  process_contents all_tools server_tool_map (blk :: rest) ls env w
  = match process_content all_tools server_tool_map blk ls env w with
    | (Ret ls', w') => process_contents all_tools server_tool_map rest ls' env w'
    | (Raise e, w') => (Raise e, w')
    end.
Proof. reflexivity. Qed.









(** ** One tool round trip *)

(** C1, as amended.  The registry holds the one server [calc] with the
    tool [add]; the model first answers with the single request of [add]
    with [{a: 2, b: 3}], the call returns 5, and the model then answers
    with the text "The result is 5".  [process_query] returns the line
    that reports the call, a newline and that text. *)
Theorem process_query_add_round_trip
    (env : Env) (w : World) (conn : ServerConnection) (add : Tool) (query id : string) :
  let t0 := trace w in
  let sess := conn_session conn in
  let catalog := [tool_dict "calc" add] in
  let request := ToolUseBlock id "add" Calc.add_args in
  let first_messages := [{| role := "user"; content := ContentStr query |}] in
  let first_call :=
    EvMessagesCreate "claude-3-5-sonnet-20241022" 1000 first_messages catalog in
  let second_messages :=
    [{| role := "user"; content := ContentStr query |};
     {| role := "assistant"; content := ContentBlocks [request] |};
     {| role := "user"; content := ContentToolResult id (JInt 5) |}] in
  servers (client w) = [("calc", conn)] →
  current_server_id (client w) = Some "calc" →
  name add = "add" →
  env_list_tools env t0 sess = inr [add] →
  env_messages_create env (t0 ++ [EvListTools sess]) first_messages catalog
  = inr [request] →
  env_call_tool env (t0 ++ [EvListTools sess; first_call]) sess "add" Calc.add_args
  = inr (JInt 5) →
  env_messages_create env
    (t0 ++ [EvListTools sess; first_call; EvCallTool sess "add" Calc.add_args])
    second_messages catalog
  = inr [TextBlock "The result is 5"] →
  fst (process_query query env w)
  = Ret (calling_line +:+ PyStr.nl +:+ "The result is 5").
Proof.
  cbv zeta. intros Hservers Hcurrent Hname Htools Hfirst Hcall Hsecond.
  unfold process_query, ServerConnection_list_tools, messages_create. unfold_M.
  rewrite Hcurrent, Hservers. simpl.
  unfold ServerConnection_list_tools. unfold_M. simpl.
  rewrite Htools. simpl. rewrite Hname. simpl.
  unfold messages_create, sent_messages. unfold_M. simpl.
  rewrite Hfirst. simpl. rewrite lookup_insert_eq.
  unfold ServerConnection_call_tool. unfold_M. simpl.
  rewrite Hservers. simpl.
  rewrite <- !app_assoc. simpl. rewrite Hcall. simpl.
  unfold messages_create, sent_messages. unfold_M. simpl.
  rewrite Hsecond. simpl. f_equal.
Qed.

Lemma process_query_add_round_trip_witness :
  fst (process_query "What is 2+3?" Calc.env Calc.world)
  = Ret (calling_line +:+ PyStr.nl +:+ "The result is 5").
Proof.
  apply (process_query_add_round_trip Calc.env Calc.world
           Calc.conn Calc.add_tool
           "What is 2+3?" "toolu_1");
    vm_compute; reflexivity.
Defined.

(** In that scenario the answer is not the bare text of the model: the
    line that reports the call comes first. *)
Lemma process_query_add_not_verbatim :
  List.map (λ item : string * ServerConnection, (item.1, List.map name (tools item.2)))
    (servers (client Calc.world)) = [("calc", ["add"])] ∧
  fst (process_query "What is 2+3?" Calc.env Calc.world)
  = Ret (calling_line +:+ PyStr.nl +:+ "The result is 5") ∧
  fst (process_query "What is 2+3?" Calc.env Calc.world) ≠ Ret "The result is 5".
Proof.
  split; [vm_compute; reflexivity|].
  split; [vm_compute; reflexivity|].
  vm_compute. discriminate.
Qed.

(** ** The catalog *)

Lemma add_tools_fst server_id ts all_tools (m : gmap string string) :
  (add_tools server_id ts all_tools m).1 = all_tools ++ List.map (tool_dict server_id) ts.
Proof.
  revert all_tools m. induction ts as [|t ts IH]; intros all_tools m; simpl.
  - by rewrite app_nil_r.
  - rewrite IH. by rewrite <- app_assoc.
Qed.

Lemma add_tools_lookup_other server_id ts all_tools (m : gmap string string) x :
  x ∉ List.map name ts → (add_tools server_id ts all_tools m).2 !! x = m !! x.
Proof.
  revert all_tools m. induction ts as [|t ts IH]; intros all_tools m Hx; simpl; [done|].
  simpl in Hx. apply not_elem_of_cons in Hx as [Hne Hx].
  rewrite IH by done. by rewrite lookup_insert_ne.
Qed.

(** The owner of a name that the server exposes is that server,
    whatever the map held before. *)
Lemma add_tools_lookup server_id ts all_tools (m : gmap string string) x :
  x ∈ List.map name ts → (add_tools server_id ts all_tools m).2 !! x = Some server_id.
Proof.
  revert all_tools m. induction ts as [|t ts IH]; intros all_tools m Hx; simpl.
  - by apply elem_of_nil in Hx.
  - destruct (decide (x ∈ List.map name ts)) as [Hin|Hout].
    + by apply IH.
    + simpl in Hx. apply elem_of_cons in Hx as [->|Hx]; [|done].
      rewrite add_tools_lookup_other by done. apply lookup_insert_eq.
Qed.

Lemma append_cons c s t : String c s +:+ t = String c (s +:+ t).
Proof. reflexivity. Qed.

Lemma append_nil t : EmptyString +:+ t = t.
Proof. reflexivity. Qed.

Lemma no_space_cons c s : no_space (String c s) → c ≠ " "%char ∧ no_space s.
Proof.
  unfold no_space. simpl. intros H. apply orb_false_iff in H as [Hc Hs].
  split; [|done]. intros ->. discriminate.
Qed.

(** Ids without a space are recovered from the prefixed descriptions. *)
Lemma bracket_prefix_inj a b da db :
  no_space a → no_space b →
  a +:+ "] " +:+ da = b +:+ "] " +:+ db → a = b.
Proof.
  revert b. induction a as [|c a IH]; intros [|c' b] Ha Hb Heq;
    rewrite ?append_cons, ?append_nil in Heq.
  - done.
  - injection Heq as <- Heq. destruct b as [|c'' b];
      rewrite ?append_cons, ?append_nil in Heq; [discriminate|].
    injection Heq as <- _.
    apply no_space_cons in Hb as [_ Hb]. apply no_space_cons in Hb as [Hb _]. done.
  - injection Heq as -> Heq. destruct a as [|c'' a];
      rewrite ?append_cons, ?append_nil in Heq; [discriminate|].
    injection Heq as -> _.
    apply no_space_cons in Ha as [_ Ha]. apply no_space_cons in Ha as [Ha _]. done.
  - injection Heq as -> Heq.
    apply no_space_cons in Ha as [_ Ha]. apply no_space_cons in Hb as [_ Hb].
    f_equal. by apply IH.
Qed.

Lemma tool_dict_description_inj a b ta tb :
  no_space a → no_space b →
  td_description (tool_dict a ta) = td_description (tool_dict b tb) → a = b.
Proof.
  unfold tool_dict. simpl. intros Ha Hb Heq.
  apply (inj (String.append "[Server: ")) in Heq.
  by apply bracket_prefix_inj in Heq.
Qed.

(** C2, as amended.  For a registry that holds [A] then [B], whose tool
    lists both have a tool named [x]: the owner map sends [x] to [B];
    the catalog is the tools of [A] followed by those of [B], so it has
    an entry named [x] for [A] and, later, one for [B]; each description
    is the tool's own behind the prefix "[Server: <id>] ", and the two
    differ when the ids have no space in them. *)
Theorem build_catalog_name_collision
    (env : Env) (w : World) (A B : string) (cA cB : ServerConnection)
    (tsA tsB : list Tool) (tA tB : Tool) (x : string) :
  servers (client w) = [(A, cA); (B, cB)] →
  env_list_tools env (trace w) (conn_session cA) = inr tsA →
  env_list_tools env (trace w ++ [EvListTools (conn_session cA)]) (conn_session cB)
  = inr tsB →
  tA ∈ tsA → name tA = x → tB ∈ tsB → name tB = x →
  ∃ all_tools (server_tool_map : gmap string string) w',
    build_catalog (servers (client w)) [] ∅ env w
    = (Ret (all_tools, server_tool_map), w') ∧
    server_tool_map !! x = Some B ∧
    all_tools = List.map (tool_dict A) tsA ++ List.map (tool_dict B) tsB ∧
    (∃ i j, (i < j)%nat ∧
            all_tools !! i = Some (tool_dict A tA) ∧
            all_tools !! j = Some (tool_dict B tB)) ∧
    td_name (tool_dict A tA) = x ∧ td_name (tool_dict B tB) = x ∧
    td_description (tool_dict A tA) = "[Server: " +:+ A +:+ "] " +:+ description tA ∧
    td_description (tool_dict B tB) = "[Server: " +:+ B +:+ "] " +:+ description tB ∧
    (A ≠ B → no_space A → no_space B →
     td_description (tool_dict A tA) ≠ td_description (tool_dict B tB)).
Proof.
  intros Hservers HtoolsA HtoolsB HinA HnameA HinB HnameB.
  rewrite Hservers. simpl.
  unfold ServerConnection_list_tools. unfold_M. simpl.
  rewrite HtoolsA. simpl. rewrite HtoolsB. simpl.
  eexists _, _, _. split; [reflexivity|].
  rewrite !add_tools_fst. simpl.
  split; [|split; [done|split; [|split; [done|split; [done|split; [done|split; [done|]]]]]]].
  - apply add_tools_lookup. rewrite <- HnameB.
    apply list_elem_of_fmap. by exists tB.
  - apply list_elem_of_lookup in HinA as [i Hi].
    apply list_elem_of_lookup in HinB as [j Hj].
    exists i, (length tsA + j)%nat.
    assert (Hlt : (i < length tsA)%nat) by (by eapply lookup_lt_Some).
    split; [lia|]. split.
    + rewrite lookup_app_l by (by rewrite length_map).
      change (List.map (tool_dict A) tsA) with (tool_dict A <$> tsA).
      by rewrite list_lookup_fmap, Hi.
    + rewrite lookup_app_r by (rewrite length_map; lia).
      rewrite length_map.
      replace (length tsA + j - length tsA)%nat with j by lia.
      change (List.map (tool_dict B) tsB) with (tool_dict B <$> tsB).
      by rewrite list_lookup_fmap, Hj.
  - intros Hne HA HB Heq. apply Hne.
    change (td_description (tool_dict A tA) = td_description (tool_dict B tB)) in Heq.
    by apply tool_dict_description_inj in Heq.
Qed.

Lemma build_catalog_name_collision_witness :
  ∃ all_tools (server_tool_map : gmap string string) w',
    build_catalog (servers (client collision_world)) [] ∅ env_collision collision_world
    = (Ret (all_tools, server_tool_map), w') ∧
    server_tool_map !! "x" = Some "a" ∧
    List.map td_name all_tools = ["x"; "x"].
Proof.
  destruct (build_catalog_name_collision env_collision collision_world
               "a] b" "a"
               (mkServerConnection "a] b" 1%nat 0%nat 1%nat [x_tool "c"])
               (mkServerConnection "a" 5%nat 4%nat 5%nat [x_tool "b] c"])
               [x_tool "c"] [x_tool "b] c"]
               (x_tool "c") (x_tool "b] c") "x")
    as (all_tools & m & w' & Hrun & Howner & Hcat & _).
  - vm_compute. reflexivity.
  - vm_compute. reflexivity.
  - vm_compute. reflexivity.
  - apply list_elem_of_here.
  - reflexivity.
  - apply list_elem_of_here.
  - reflexivity.
  - exists all_tools, m, w'. split; [exact Hrun|]. split; [exact Howner|].
    rewrite Hcat. reflexivity.
Defined.

(** With the ids [a] b] and [a], the two entries named [x] carry the
    same description. *)
Lemma build_catalog_same_description :
  PyDict.keys (servers (client collision_world)) = ["a] b"; "a"] ∧
  List.map (λ item : string * ServerConnection, List.map name (tools item.2))
    (servers (client collision_world)) = [["x"]; ["x"]] ∧
  match
    fst (build_catalog (servers (client collision_world)) [] ∅
           env_collision collision_world)
  with
  | Ret (all_tools, server_tool_map) =>
      server_tool_map !! "x" = Some "a" ∧
      List.map td_name all_tools = ["x"; "x"] ∧
      List.map td_description all_tools = ["[Server: a] b] c"; "[Server: a] b] c"] ∧
      ¬ (∀ e1 e2, all_tools = [e1; e2] → td_description e1 ≠ td_description e2)
  | Raise _ => False
  end.
Proof.
  split; [vm_compute; reflexivity|].
  split; [vm_compute; reflexivity|].
  vm_compute.
  split; [reflexivity|]. split; [reflexivity|]. split; [reflexivity|].
  intros H. eapply H; reflexivity.
Qed.

(** ** The command line *)

Lemma py_range_pairs k : py_range 1 (1 + 2 * k) 2 = List.map (λ j, 1 + j * 2)%nat (seq 0 k).
Proof.
  unfold py_range. f_equal. f_equal.
  replace (1 + 2 * k - 1 + 2 - 1)%nat with (1 + k * 2)%nat by lia.
  rewrite Nat.div_add by lia. simpl. lia.
Qed.

Lemma connect_loop_from k : ∀ (pre rest : list string) env w,
  length rest = (2 * k)%nat →
  connect_loop (pre ++ rest) (List.map (λ j, length pre + j * 2)%nat (seq 0 k)) env w
  = connect_all (pairs rest) env w.
Proof.
  induction k as [|k IH]; intros pre rest env w Hlen.
  - destruct rest; [reflexivity|discriminate].
  - destruct rest as [|a [|b rest]]; simpl in Hlen; try lia.
    cbn [seq List.map connect_loop pairs connect_all].
    unfold bind, item.
    rewrite lookup_app_r by lia.
    replace (length pre + 0 * 2 - length pre)%nat with 0%nat by lia.
    rewrite lookup_app_r by lia.
    replace (length pre + 0 * 2 + 1 - length pre)%nat with 1%nat by lia.
    cbn [lookup list_lookup ret].
    destruct (connect_to_server a b env w) as [[[]|e] w1]; [|reflexivity].
    rewrite <- seq_shift, List.map_map.
    specialize (IH (pre ++ [a; b]) rest env w1).
    rewrite <- app_assoc in IH. simpl in IH.
    rewrite <- IH by lia. f_equal.
    apply List.map_ext. intros j. rewrite length_app. simpl. lia.
Qed.

Lemma connect_loop_pairs (argv : list string) k env w :
  length argv = (1 + 2 * k)%nat →
  connect_loop argv (py_range 1 (length argv) 2) env w
  = connect_all (pairs (tail argv)) env w.
Proof.
  intros Hlen. rewrite Hlen, py_range_pairs.
  destruct argv as [|prog rest]; [discriminate|].
  simpl in Hlen. simpl tail.
  apply (connect_loop_from k [prog] rest env w). lia.
Qed.



(** ** The [/disconnect] command *)

Lemma is_space_lower_char c : PyStr.is_space (PyStr.lower_char c) = PyStr.is_space c.
Proof. destruct c as [[] [] [] [] [] [] [] []]; reflexivity. Qed.

Lemma lower_char_slash c : PyStr.lower_char c = "/"%char → c = "/"%char.
Proof. destruct c as [[] [] [] [] [] [] [] []]; intros H; try reflexivity; discriminate H. Qed.

Lemma is_ascii_lower_char c :
  (N_of_ascii (PyStr.lower_char c) <? 128)%N = (N_of_ascii c <? 128)%N.
Proof. destruct c as [[] [] [] [] [] [] [] []]; reflexivity. Qed.

Lemma plain_lower s : plain (PyStr.lower s) = plain s.
Proof.
  induction s as [|c s IH]; simpl; [done|].
  by rewrite is_ascii_lower_char, is_space_lower_char, IH.
Qed.

(** No white-space character starts with an ASCII character that is not
    white space itself. *)
Lemma space_width_plain c s :
  (N_of_ascii c <? 128)%N = true → PyStr.is_space c = false →
  PyStr.space_width (String c s) = 0%nat.
Proof.
  intros Hc Hs. apply N.ltb_lt in Hc.
  unfold PyStr.space_width. rewrite Hs.
  destruct s as [|c2 s2]; [done|].
  unfold PyStr.is_space2.
  replace (N_of_ascii c =? 194)%N with false by (symmetry; apply N.eqb_neq; lia).
  simpl. destruct s2 as [|c3 s3]; [done|].
  unfold PyStr.is_space3.
  replace (N_of_ascii c =? 225)%N with false by (symmetry; apply N.eqb_neq; lia).
  replace (N_of_ascii c =? 226)%N with false by (symmetry; apply N.eqb_neq; lia).
  replace (N_of_ascii c =? 227)%N with false by (symmetry; apply N.eqb_neq; lia).
  reflexivity.
Qed.

Lemma space_width_zero_head c s :
  PyStr.space_width (String c s) = 0%nat → PyStr.is_space c = false.
Proof. unfold PyStr.space_width. by destruct (PyStr.is_space c). Qed.

(** How [split] goes on: a word starts where no white space does, and a
    white-space character is skipped whole. *)
Lemma split_word c s :
  PyStr.space_width (String c s) = 0%nat →
  PyStr.split (String c s)
  = match PyStr.split s with
    | w :: ws =>
        if match s with
           | EmptyString => true
           | String _ _ => negb (Nat.eqb (PyStr.space_width s) 0)
           end
        then String c EmptyString :: w :: ws
        else String c w :: ws
    | [] => [String c EmptyString]
    end.
Proof. intros Hw. cbn [PyStr.split]. rewrite Hw. by destruct (PyStr.split s). Qed.

Lemma split_cases s :
  s = EmptyString ∨
  (∃ c s1, s = String c s1 ∧ PyStr.space_width s = 0%nat) ∨
  (∃ c s1, s = String c s1 ∧ PyStr.space_width s = 1%nat ∧
           PyStr.split s = PyStr.split s1 ∧ PyStr.lstrip s = PyStr.lstrip s1) ∨
  (∃ c1 c2 s2, s = String c1 (String c2 s2) ∧ PyStr.space_width s = 2%nat ∧
               PyStr.split s = PyStr.split s2 ∧ PyStr.lstrip s = PyStr.lstrip s2) ∨
  (∃ c1 c2 c3 s3, s = String c1 (String c2 (String c3 s3)) ∧
                  PyStr.space_width s = 3%nat ∧
                  PyStr.split s = PyStr.split s3 ∧ PyStr.lstrip s = PyStr.lstrip s3).
Proof.
  destruct s as [|c1 s1]; [by left|]. right.
  destruct (PyStr.space_width (String c1 s1)) as [|[|[|[|k]]]] eqn:Hw.
  - left. eauto.
  - right. left. exists c1, s1. repeat split; try done.
    + cbn [PyStr.split]. by rewrite Hw.
    + cbn [PyStr.lstrip]. by rewrite Hw.
  - right. right. left.
    destruct s1 as [|c2 s2].
    { exfalso. revert Hw. unfold PyStr.space_width. by destruct (PyStr.is_space c1). }
    exists c1, c2, s2. repeat split; try done.
    + cbn [PyStr.split]. by rewrite Hw.
    + cbn [PyStr.lstrip]. by rewrite Hw.
  - right. right. right.
    destruct s1 as [|c2 [|c3 s3]].
    { exfalso. revert Hw. unfold PyStr.space_width. by destruct (PyStr.is_space c1). }
    { exfalso. revert Hw. unfold PyStr.space_width.
      destruct (PyStr.is_space c1); [done|]. by destruct (PyStr.is_space2 c1 c2). }
    exists c1, c2, c3, s3. repeat split; try done.
    + cbn [PyStr.split]. by rewrite Hw.
    + cbn [PyStr.lstrip]. by rewrite Hw.
  - exfalso. revert Hw. unfold PyStr.space_width.
    destruct (PyStr.is_space c1); [done|].
    destruct s1 as [|c2 s2]; [done|].
    destruct (PyStr.is_space2 c1 c2); [done|].
    destruct s2 as [|c3 s3]; [done|].
    by destruct (PyStr.is_space3 c1 c2 c3).
Qed.

(** A text of ASCII characters without white space is at most one
    word. *)
Lemma split_plain s :
  plain s = true →
  PyStr.split s = match s with EmptyString => [] | String _ _ => [s] end.
Proof.
  induction s as [|c s IH]; [done|].
  cbn [plain]. intros H.
  apply andb_true_iff in H as [H Hs]. apply andb_true_iff in H as [Hc Hsp].
  apply negb_true_iff in Hsp.
  rewrite (split_word c s (space_width_plain c s Hc Hsp)), (IH Hs).
  destruct s as [|d s]; [done|].
  cbn [plain] in Hs.
  apply andb_true_iff in Hs as [Hs _]. apply andb_true_iff in Hs as [Hd Hdsp].
  apply negb_true_iff in Hdsp.
  by rewrite (space_width_plain d s Hd Hdsp).
Qed.

Lemma split_two_words_not_quit s cmd a rest :
  PyStr.split s = cmd :: a :: rest → PyStr.lower s ≠ "/quit".
Proof.
  intros Hsplit Hquit.
  assert (Hs : plain s = true).
  { rewrite <- plain_lower, Hquit. reflexivity. }
  rewrite (split_plain s Hs) in Hsplit. by destruct s.
Qed.

(** A stripped text does not start with white space. *)
Lemma lstrip_head s : PyStr.space_width (PyStr.lstrip s) = 0%nat.
Proof.
  assert (Hlen : ∀ n s, (String.length s ≤ n)%nat →
            PyStr.space_width (PyStr.lstrip s) = 0%nat).
  { clear s. induction n as [|n IH]; intros s Hn.
    - destruct s; [done|simpl in Hn; lia].
    - destruct (split_cases s) as [->|[(c & s1 & -> & Hw)|[(c & s1 & -> & _ & _ & Hl)
        |[(c1 & c2 & s2 & -> & _ & _ & Hl)|(c1 & c2 & c3 & s3 & -> & _ & _ & Hl)]]]].
      + done.
      + cbn [PyStr.lstrip]. rewrite Hw. exact Hw.
      + rewrite Hl. apply IH. simpl in Hn. lia.
      + rewrite Hl. apply IH. simpl in Hn. lia.
      + rewrite Hl. apply IH. simpl in Hn. lia. }
  by apply (Hlen (String.length s)).
Qed.

Lemma rstrip_head s :
  PyStr.space_width s = 0%nat → PyStr.space_width (PyStr.rstrip s) = 0%nat.
Proof.
  destruct s as [|c1 s1]; [done|]. intros Hw.
  cbn [PyStr.rstrip]. destruct (PyStr.all_space (String c1 s1)); [done|].
  revert Hw. unfold PyStr.space_width.
  destruct (PyStr.is_space c1); [done|].
  destruct s1 as [|c2 s2]; [done|].
  cbn [PyStr.rstrip]. destruct (PyStr.all_space (String c2 s2)); [done|].
  destruct (PyStr.is_space2 c1 c2); [done|].
  destruct s2 as [|c3 s3]; [done|].
  cbn [PyStr.rstrip]. by destruct (PyStr.all_space (String c3 s3)).
Qed.

Lemma strip_head s : PyStr.space_width (PyStr.strip s) = 0%nat.
Proof. unfold PyStr.strip. apply rstrip_head, lstrip_head. Qed.

Lemma split_head c s :
  PyStr.space_width (String c s) = 0%nat →
  ∃ w ws, PyStr.split (String c s) = String c w :: ws.
Proof.
  intros Hw. rewrite (split_word c s Hw).
  destruct (PyStr.split s) as [|w ws]; [eauto|].
  destruct (match s with
            | EmptyString => true
            | String _ _ => negb (Nat.eqb (PyStr.space_width s) 0)
            end); eauto.
Qed.

Lemma stripped_command_starts_with_slash line cmd rest :
  PyStr.split (PyStr.strip line) = cmd :: rest →
  PyStr.lower cmd = "/disconnect" →
  PyStr.startswith (PyStr.strip line) "/" = true.
Proof.
  intros Hsplit Hlower. pose proof (strip_head line) as Hhead.
  destruct (PyStr.strip line) as [|c s]; [discriminate|].
  destruct (split_head c s Hhead) as (w & ws & Hw).
  rewrite Hw in Hsplit. injection Hsplit as <- _.
  simpl in Hlower. injection Hlower as Hc _.
  apply lower_char_slash in Hc as ->. by destruct s.
Qed.

(** C10. [class MCPClient] has a method [disconnected_server] and none
    called [disconnect_server]; so, in every state and for every id, a
    turn of the loop that reads [/disconnect <id>] raises
    [AttributeError] at the lookup of the method, the handler of the
    loop prints the error, the loop goes on, and the client (its
    [servers] and [current_server_id] with it) is unchanged. *)
Theorem disconnect_command_never_disconnects
    (env : Env) (w : World) (line cmd a : string) (rest : list string) :
  env_input env (trace w) prompt = inr line →
  PyStr.split (PyStr.strip line) = cmd :: a :: rest →
  PyStr.lower cmd = "/disconnect" →
  PyDict.get "disconnect_server" MCPClient_methods = None ∧
  PyDict.get "disconnected_server" MCPClient_methods = Some Meth_disconnected_server ∧
  getattr_method "disconnect_server" env w
  = (Raise (AttributeError "'MCPClient' object has no attribute 'disconnect_server'"), w) ∧
  chat_iteration env w
  = (Ret true,
     {| client := client w;
        trace := trace w ++ [EvInput prompt];
        stdout := stdout w ++ [no_attribute_line] |}).
Proof.
  intros Hinput Hsplit Hlower.
  split; [reflexivity|]. split; [reflexivity|]. split; [reflexivity|].
  unfold chat_iteration. unfold_M. rewrite Hinput.
  pose proof (split_two_words_not_quit _ _ _ _ Hsplit) as Hquit.
  apply String.eqb_neq in Hquit. rewrite Hquit.
  rewrite (stripped_command_starts_with_slash line cmd (a :: rest) Hsplit Hlower).
  rewrite Hsplit. unfold item. unfold_M. cbn [lookup list_lookup].
  rewrite Hlower. reflexivity.
Qed.

Lemma disconnect_command_never_disconnects_witness :
  PyDict.keys (servers (client (snd (chat_iteration (env_typing " /Disconnect calc ")
                                       Calc.world))))
  = ["calc"] ∧
  PyDict.keys
    (servers (client (snd (chat_iteration
                             (env_typing ("/disconnect" +:+ PyStr.nbsp +:+ "calc"))
                             Calc.world))))
  = ["calc"].
Proof.
  split.
  - destruct (disconnect_command_never_disconnects (env_typing " /Disconnect calc ")
                Calc.world " /Disconnect calc " "/Disconnect" "calc" [])
      as (_ & _ & _ & Hturn).
    + reflexivity.
    + vm_compute. reflexivity.
    + vm_compute. reflexivity.
    + rewrite Hturn. vm_compute. reflexivity.
  - destruct (disconnect_command_never_disconnects
                (env_typing ("/disconnect" +:+ PyStr.nbsp +:+ "calc"))
                Calc.world ("/disconnect" +:+ PyStr.nbsp +:+ "calc")
                "/disconnect" "calc" [])
      as (_ & _ & _ & Hturn).
    + reflexivity.
    + vm_compute. reflexivity.
    + vm_compute. reflexivity.
    + rewrite Hturn. vm_compute. reflexivity.
Defined.

(** The method that the command does not reach removes the server. *)
Example disconnected_server_removes :
  PyDict.keys (servers (client (snd (disconnected_server "calc" Calc.env Calc.world))))
  = [].
Proof. vm_compute. reflexivity. Qed.

(** * Further properties of the registry *)

Section DictAppend.
Context {V : Type}.
Implicit Types (d : list (string * V)) (k : string).

Lemma set_fresh k (v : V) d : k ∉ PyDict.keys d → PyDict.set k v d = d ++ [(k, v)].
Proof.
  induction d as [|[k' v'] d IH]; simpl; intros Hk; [done|].
  apply not_elem_of_cons in Hk as [Hne Hk].
  rewrite decide_False by done. f_equal. by apply IH.
Qed.

Lemma alter_app_fresh (f : V → V) k (v : V) d :
  k ∉ PyDict.keys d → PyDict.alter f k (d ++ [(k, v)]) = d ++ [(k, f v)].
Proof.
  induction d as [|[k' v'] d IH]; simpl; intros Hk.
  - by rewrite decide_True.
  - apply not_elem_of_cons in Hk as [Hne Hk].
    rewrite decide_False by done. f_equal. by apply IH.
Qed.

Lemma del_app_fresh k (v : V) d : k ∉ PyDict.keys d → PyDict.del k (d ++ [(k, v)]) = d.
Proof.
  induction d as [|[k' v'] d IH]; simpl; intros Hk.
  - by rewrite decide_True.
  - apply not_elem_of_cons in Hk as [Hne Hk].
    rewrite decide_False by done. f_equal. by apply IH.
Qed.

Lemma keys_nil_inv d : PyDict.keys d = [] → d = [].
Proof. by destruct d. Qed.

Lemma set_not_nil k (v : V) d : PyDict.set k v d ≠ [].
Proof. destruct d as [|[k' v'] d]; simpl; [done|]. by case_decide. Qed.
End DictAppend.

(** X1. [switch_server] never touches the entries, the handles or the
    history of calls; on a key of the registry it returns [True] and
    makes it current, on any other id it returns [False] and the current
    server stays. *)
Theorem switch_server_spec (env : Env) (w : World) (a : string) :
  let r := switch_server a env w in
  servers (client (snd r)) = servers (client w) ∧
  exit_stack (client (snd r)) = exit_stack (client w) ∧
  trace (snd r) = trace w ∧
  (a ∈ PyDict.keys (servers (client w)) →
   fst r = Ret true ∧ current_server_id (client (snd r)) = Some a ∧
   stdout (snd r) = stdout w ++ ["Switched to server: " +:+ a]) ∧
  (a ∉ PyDict.keys (servers (client w)) →
   fst r = Ret false ∧ client (snd r) = client w ∧
   stdout (snd r) = stdout w ++ ["Server '" +:+ a +:+ "' not found."]).
Proof.
  unfold switch_server. unfold_M. simpl.
  destruct (PyDict.mem a (servers (client w))) eqn:Hmem; simpl.
  - apply mem_true in Hmem. repeat split; try done; intros Hout; by destruct Hout.
  - apply mem_false in Hmem. repeat split; try done; try (intros Hin; by destruct Hmem).
Qed.

(** X2. On a fresh id, a script path that ends neither in [.py] nor in
    [.js] (the test is case sensitive) raises [ValueError] before any
    process is spawned: the world is unchanged. *)
Theorem connect_to_server_bad_script (env : Env) (w : World) (a p : string) :
  a ∉ PyDict.keys (servers (client w)) →
  PyStr.endswith p ".py" = false →
  PyStr.endswith p ".js" = false →
  connect_to_server a p env w = (Raise (ValueError bad_script_message), w).
Proof.
  intros Hfresh Hpy Hjs. apply mem_false in Hfresh.
  unfold connect_to_server. unfold_M. simpl. by rewrite Hfresh, Hpy, Hjs.
Qed.

Lemma connect_to_server_bad_script_witness :
  connect_to_server "calc" "calc.PY" Calc.env World_init
  = (Raise (ValueError "Server script must be a .py or .js file"), World_init).
Proof.
  apply (connect_to_server_bad_script Calc.env World_init "calc" "calc.PY").
  - apply not_elem_of_nil.
  - reflexivity.
  - reflexivity.
Defined.

(** The run of a connect on a fresh id whose four external steps
    succeed. *)
Lemma connect_to_server_run
    (env : Env) (w : World) (a p : string) (r wr s : Handle) (ts : list Tool) :
  let t := trace w in
  let e1 := EvStdioClient (command_for p) [p] in
  let e2 := EvClientSession r wr in
  let e3 := EvInitialize s in
  a ∉ PyDict.keys (servers (client w)) →
  (PyStr.endswith p ".py" || PyStr.endswith p ".js")%bool = true →
  env_stdio_client env t (command_for p) [p] = inr (r, wr) →
  env_client_session env (t ++ [e1]) r wr = inr s →
  env_initialize env (t ++ [e1; e2]) s = inr tt →
  env_list_tools env (t ++ [e1; e2; e3]) s = inr ts →
  connect_to_server a p env w =
  (Ret tt,
   {| client :=
        {| session := Some s; stdio := Some r; write := Some wr;
           exit_stack := exit_stack (client w) ++ [CtxStdioClient r wr; CtxClientSession s];
           servers := servers (client w) ++ [(a, mkServerConnection a s r wr ts)];
           current_server_id :=
             match current_server_id (client w) with
             | None => Some a
             | Some k => Some k
             end |};
      trace := t ++ [e1; e2; e3; EvListTools s];
      stdout := stdout w ++ [connected_line ts] |}).
Proof.
  cbv zeta. intros Hfresh Hext Hspawn Hsession Hinit Htools.
  apply mem_false in Hfresh as Hmem.
  unfold connect_to_server, ServerConnection_list_tools, command_for in *.
  unfold_M. simpl. rewrite Hmem, Hext. simpl.
  rewrite Hspawn. simpl. rewrite Hsession. simpl.
  rewrite <- ?app_assoc. simpl. rewrite Hinit. simpl.
  rewrite (set_fresh a _ _ Hfresh).
  destruct (current_server_id (client w)) as [k|] eqn:Hcur; simpl;
    rewrite <- ?app_assoc; simpl; rewrite Htools; simpl;
    rewrite ?Hcur; rewrite (alter_app_fresh _ a _ _ Hfresh);
    unfold set_servers, set_session, push_context, set_stdio_write,
      set_current_server_id; simpl;
    rewrite <- ?app_assoc, ?Hcur; reflexivity.
Qed.



Lemma connect_to_server_tight env a p w :
  registry_tight (client w) → registry_tight (client (snd (connect_to_server a p env w))).
Proof.
  intros Htight. unfold connect_to_server, ServerConnection_list_tools.
  unfold_M. unfold registry_tight in *. simpl.
  destruct (PyDict.mem a (servers (client w))) eqn:Hmem; simpl; [done|].
  destruct (negb _); simpl; [done|].
  destruct (env_stdio_client _ _ _ _) as [?|[r wr]]; simpl; [done|].
  destruct (env_client_session _ _ _ _) as [?|s]; simpl; [done|].
  destruct (env_initialize _ _ _) as [?|[]]; simpl; [done|].
  destruct (current_server_id (client w)) as [k|] eqn:Hcur; simpl;
    destruct (env_list_tools _ _ _) as [?|ts]; simpl; rewrite ?Hcur; simpl;
    (split; [discriminate|]); intros Hnil;
    try (apply (f_equal PyDict.keys) in Hnil; rewrite keys_alter in Hnil;
         apply keys_nil_inv in Hnil);
    by apply set_not_nil in Hnil.
Qed.

Lemma switch_server_tight env a w :
  registry_tight (client w) → registry_tight (client (snd (switch_server a env w))).
Proof.
  intros Htight. unfold switch_server. unfold_M. unfold registry_tight in *. simpl.
  destruct (PyDict.mem a (servers (client w))) eqn:Hmem; simpl; [|done].
  apply mem_true in Hmem. split; [discriminate|].
  intros Hnil. rewrite Hnil in Hmem. by apply elem_of_nil in Hmem.
Qed.

Lemma disconnected_server_tight env a w :
  registry_inv (client w) → registry_tight (client w) →
  registry_tight (client (snd (disconnected_server a env w))).
Proof.
  intros Hinv Htight. unfold disconnected_server. unfold_M.
  unfold registry_tight, registry_inv in *. simpl.
  destruct (PyDict.mem a (servers (client w))) eqn:Hmem; simpl; [|done].
  case_decide as Hcur; simpl.
  - destruct (PyDict.del a (servers (client w))) as [|[k v] d]; simpl; done.
  - destruct (current_server_id (client w)) as [k|] eqn:Hk.
    + split; [discriminate|]. intros Hnil.
      assert (Hin : k ∈ PyDict.keys (PyDict.del a (servers (client w)))).
      { apply elem_of_keys_del. split; [done|congruence]. }
      rewrite Hnil in Hin. by apply elem_of_nil in Hin.
    + apply mem_true in Hmem. destruct Htight as [Hnil _].
      rewrite (Hnil eq_refl) in Hmem. by apply elem_of_nil in Hmem.
Qed.

Lemma same_registry_tight c c' : same_registry c c' → registry_tight c → registry_tight c'.
Proof.
  unfold same_registry, registry_tight. intros [Hkeys ->] [H1 H2]. split.
  - intros Hnone. apply keys_nil_inv. rewrite Hkeys, (H1 Hnone). reflexivity.
  - intros Hnil. apply H2, keys_nil_inv. rewrite <- Hkeys, Hnil. reflexivity.
Qed.

Lemma step_tight env op w :
  registry_inv (client w) ∧ registry_tight (client w) →
  registry_inv (client (step env op w)) ∧ registry_tight (client (step env op w)).
Proof.
  intros [Hinv Htight]. split; [by apply step_inv|].
  destruct op; simpl.
  - by apply connect_to_server_tight.
  - by apply switch_server_tight.
  - by apply disconnected_server_tight.
  - by rewrite list_servers_client.
  - eapply same_registry_tight; [apply process_query_same_registry|done].
Qed.

(** X5. Whatever the collaborators answer, after each operation of any
    sequence of operations run from the fresh client,
    [current_server_id] is [None] exactly when the registry is empty: a
    client with a server connected always has a current server. *)
Theorem current_server_unset_iff_empty (env : Env) (ops : list Op) :
  Forall (λ w, current_server_id (client w) = None ↔ servers (client w) = [])
    (states_after env ops World_init).
Proof.
  assert (Hgen : ∀ w, registry_inv (client w) ∧ registry_tight (client w) →
            Forall (λ w', registry_tight (client w')) (states_after env ops w)).
  { induction ops as [|op ops IH]; intros w Hw; simpl; constructor.
    - by apply step_tight.
    - by apply IH, step_tight. }
  apply Hgen. split; [exact I|]. by split.
Qed.

(** X6. [disconnected_server] releases nothing: the exit stack, with
    the contexts of the connection it removes, the session and stream
    attributes of the client and the history of external calls are as
    before, on a key of the registry as on any other id. *)
Theorem disconnected_server_releases_nothing (env : Env) (w : World) (a : string) :
  let w' := snd (disconnected_server a env w) in
  exit_stack (client w') = exit_stack (client w) ∧
  session (client w') = session (client w) ∧
  stdio (client w') = stdio (client w) ∧
  write (client w') = write (client w) ∧
  trace w' = trace w.
Proof.
  unfold disconnected_server. unfold_M. simpl.
  destruct (PyDict.mem a (servers (client w))); simpl; [|done].
  case_decide; simpl; [|done].
  by destruct (PyDict.del a (servers (client w))) as [|[k v] d].
Qed.

(** X4. Connecting a fresh id and then disconnecting it restores the
    registry and the current server of a client that satisfies the two
    invariants; the two contexts pushed by the connect stay on the exit
    stack. *)
Theorem connect_then_disconnect
    (env : Env) (w : World) (a p : string) (r wr s : Handle) (ts : list Tool) :
  let t := trace w in
  let e1 := EvStdioClient (if PyStr.endswith p ".py" then "python" else "node") [p] in
  let e2 := EvClientSession r wr in
  let e3 := EvInitialize s in
  registry_inv (client w) →
  registry_tight (client w) →
  a ∉ PyDict.keys (servers (client w)) →
  (PyStr.endswith p ".py" || PyStr.endswith p ".js")%bool = true →
  env_stdio_client env t (if PyStr.endswith p ".py" then "python" else "node") [p]
  = inr (r, wr) →
  env_client_session env (t ++ [e1]) r wr = inr s →
  env_initialize env (t ++ [e1; e2]) s = inr tt →
  env_list_tools env (t ++ [e1; e2; e3]) s = inr ts →
  let w1 := snd (connect_to_server a p env w) in
  let res := disconnected_server a env w1 in
  fst res = Ret true ∧
  servers (client (snd res)) = servers (client w) ∧
  current_server_id (client (snd res)) = current_server_id (client w) ∧
  exit_stack (client (snd res))
  = exit_stack (client w) ++ [CtxStdioClient r wr; CtxClientSession s].
Proof.
  cbv zeta. intros Hinv Htight Hfresh Hext Hspawn Hsession Hinit Htools.
  rewrite (connect_to_server_run env w a p r wr s ts Hfresh Hext Hspawn Hsession
             Hinit Htools).
  unfold disconnected_server. unfold_M. simpl.
  assert (Hmem : PyDict.mem a (servers (client w) ++ [(a, mkServerConnection a s r wr ts)])
                 = true).
  { apply mem_true. unfold PyDict.keys. rewrite fmap_app. apply elem_of_app. right.
    apply list_elem_of_here. }
  rewrite Hmem. simpl. rewrite (del_app_fresh a _ _ Hfresh).
  unfold registry_inv, registry_tight in *.
  destruct (current_server_id (client w)) as [k|] eqn:Hcur; simpl.
  - rewrite decide_False by (intros [= ->]; done). done.
  - rewrite decide_True by done.
    destruct Htight as [Hnil _]. rewrite (Hnil eq_refl). done.
Qed.

Lemma connect_then_disconnect_witness :
  servers (client (snd (disconnected_server "calc" Calc.env Calc.world))) = [] ∧
  exit_stack (client (snd (disconnected_server "calc" Calc.env Calc.world)))
  = [CtxStdioClient 0%nat 1%nat; CtxClientSession 1%nat].
Proof.
  destruct (connect_then_disconnect Calc.env World_init "calc" "calc.py"
              0%nat 1%nat 1%nat [Calc.add_tool])
    as (_ & Hservers & _ & Hstack); try reflexivity; try exact I.
  - by split.
  - apply not_elem_of_nil.
  - split; [exact Hservers | exact Hstack].
Defined.

(** * Further properties of queries *)

Lemma quiet_refl w : quiet w w.
Proof. by split. Qed.

Lemma quiet_trans w1 w2 w3 : quiet w1 w2 → quiet w2 w3 → quiet w1 w3.
Proof. intros [H1 H2] [H3 H4]. split; [congruence|by etrans]. Qed.

Lemma quiet_call c w ev :
  quiet w {| client := c; trace := trace w ++ [ev]; stdout := stdout w |}.
Proof. split; [done|]. by apply prefix_app_r. Qed.

Lemma quiet_length w w' : quiet w w' → (length (trace w) ≤ length (trace w'))%nat.
Proof. intros [_ H]. by apply prefix_length. Qed.

Lemma same_connection_refl c : same_connection c c.
Proof. by repeat split. Qed.

Lemma caches_only_refl c : caches_only c c.
Proof.
  repeat split; try done. apply Forall2_same_length_lookup_2; [done|].
  intros i x y Hx Hy. rewrite Hx in Hy. injection Hy as <-.
  split; [done|apply same_connection_refl].
Qed.

Lemma caches_only_trans c1 c2 c3 :
  caches_only c1 c2 → caches_only c2 c3 → caches_only c1 c3.
Proof.
  intros (Ha & Hb & Hc & Hd & He & Hf) (Ha' & Hb' & Hc' & Hd' & He' & Hf').
  repeat split; try congruence.
  eapply Forall2_trans; [|exact Hf|exact Hf'].
  intros x y z [Hxy (H1 & H2 & H3 & H4)] [Hyz (H1' & H2' & H3' & H4')].
  split; [congruence|]. repeat split; congruence.
Qed.

Lemma alter_set_tools_caches ts k d :
  Forall2 (λ x y : string * ServerConnection, y.1 = x.1 ∧ same_connection x.2 y.2)
    d (PyDict.alter (set_tools ts) k d).
Proof.
  induction d as [|[k' v] d IH]; simpl; [constructor|].
  case_decide.
  - constructor; [by repeat split|].
    apply Forall2_same_length_lookup_2; [done|].
    intros i x y Hx Hy. rewrite Hx in Hy. injection Hy as <-.
    split; [done|apply same_connection_refl].
  - constructor; [|done]. split; [done|apply same_connection_refl].
Qed.

Lemma list_tools_caches key conn env w :
  let w' := snd (ServerConnection_list_tools key conn env w) in
  caches_only (client w) (client w') ∧ quiet w w' ∧
  (length (trace w) < length (trace w'))%nat.
Proof.
  unfold ServerConnection_list_tools. unfold_M. simpl.
  destruct (env_list_tools _ _ _) as [msg|ts]; simpl.
  - split; [apply caches_only_refl|]. split; [apply quiet_call|].
    rewrite length_app. simpl. lia.
  - split; [|split; [apply quiet_call|rewrite length_app; simpl; lia]].
    repeat split; try done. apply alter_set_tools_caches.
Qed.

Lemma build_catalog_caches items all_tools (m : gmap string string) env w :
  let r := build_catalog items all_tools m env w in
  caches_only (client w) (client (snd r)) ∧ quiet w (snd r) ∧
  ((∃ e, fst r = Raise e) → (length (trace w) < length (trace (snd r)))%nat).
Proof.
  revert all_tools m w. induction items as [|[k conn] items IH]; intros all_tools m w.
  - simpl. split; [apply caches_only_refl|]. split; [apply quiet_refl|].
    intros [e He]. discriminate.
  - cbn [build_catalog]. unfold bind.
    pose proof (list_tools_caches k conn env w) as (Hc & Hq & Hlen).
    destruct (ServerConnection_list_tools k conn env w) as [[ts|e] w1]; simpl in *.
    + match goal with
      | |- context [build_catalog items ?a ?b env w1] =>
          destruct (IH a b w1) as (Hc' & Hq' & _)
      end.
      split; [by eapply caches_only_trans|]. split; [by eapply quiet_trans|].
      intros _. apply quiet_length in Hq'. lia.
    + done.
Qed.

Lemma process_content_quiet all_tools (m : gmap string string) blk ls env w :
  quiet w (snd (process_content all_tools m blk ls env w)).
Proof.
  unfold process_content, ServerConnection_call_tool, messages_create, first_text.
  destruct blk as [t|id tool_name tool_args]; [apply quiet_refl|].
  destruct (m !! tool_name) as [server_id|]; [|apply quiet_refl].
  unfold_M. simpl.
  destruct (PyDict.get server_id (servers (client w))) as [server|]; [|apply quiet_refl].
  destruct (env_call_tool _ _ _ _ _) as [msg|result]; simpl; [apply quiet_call|].
  assert (Hq : ∀ c ev1 ev2,
            quiet w {| client := c; trace := (trace w ++ [ev1]) ++ [ev2];
                       stdout := stdout w |}).
  { intros c ev1 ev2. split; [done|]. rewrite <- app_assoc. by apply prefix_app_r. }
  destruct (env_messages_create _ _ _ _) as [msg|[|[t|? ? ?] response]]; apply Hq.
Qed.

Lemma process_contents_quiet all_tools (m : gmap string string) blocks ls env w :
  quiet w (snd (process_contents all_tools m blocks ls env w)).
Proof.
  revert ls w. induction blocks as [|blk blocks IH]; intros ls w; [apply quiet_refl|].
  cbn [process_contents]. unfold bind.
  pose proof (process_content_quiet all_tools m blk ls env w) as Hone.
  destruct (process_content all_tools m blk ls env w) as [[ls'|e] w1]; simpl in *; [|done].
  eapply quiet_trans; [exact Hone|apply IH].
Qed.

(** X7. A query, whether it returns or raises, changes nothing of the
    client but the cached tool lists: the keys of the registry and
    their order, the handles of every connection, the current server,
    the exit stack and the session attributes are as before; it prints
    nothing, and the external calls made before it remain the start of
    the history. *)
Theorem process_query_changes_caches_only (query : string) (env : Env) (w : World) :
  let w' := snd (process_query query env w) in
  caches_only (client w) (client w') ∧
  PyDict.keys (servers (client w')) = PyDict.keys (servers (client w)) ∧
  stdout w' = stdout w ∧
  trace w `prefix_of` trace w'.
Proof.
  cbv zeta.
  assert (Hmain : caches_only (client w) (client (snd (process_query query env w))) ∧
                  quiet w (snd (process_query query env w))).
  { unfold process_query, messages_create. unfold_M.
    destruct (is_falsy _); [split; [apply caches_only_refl|apply quiet_refl]|].
    pose proof (build_catalog_caches (servers (client w)) [] ∅ env w) as (Hc & Hq & _).
    destruct (build_catalog _ _ _ env w) as [[cat|e] w1]; simpl in *; [|done].
    destruct (env_messages_create _ _ _ _) as [msg|response]; simpl.
    { split; [done|]. eapply quiet_trans; [exact Hq|apply quiet_call]. }
    match goal with
    | |- context [process_contents ?a ?b ?c ?d ?e ?f] =>
        pose proof (process_contents_client a b c d e f) as Hloop;
        pose proof (process_contents_quiet a b c d e f) as Hloopq;
        destruct (process_contents a b c d e f) as [[ls|e'] w2]
    end; simpl in *; rewrite Hloop;
      (split; [done|]);
      (eapply quiet_trans; [exact Hq|]);
      (eapply quiet_trans; [apply quiet_call|exact Hloopq]). }
  destruct Hmain as [Hc [Hout Htrace]].
  split; [exact Hc|]. split; [|by split].
  apply process_query_same_registry.
Qed.

(** X8. A query is refused, with the no-active-server message and the
    world untouched, exactly when [current_server_id] is [None] or the
    empty string; with any other current server the query calls at
    least one collaborator. *)
Theorem process_query_refused_iff (query : string) (env : Env) (w : World) :
  (process_query query env w = (Ret no_active_server, w) ↔
   is_falsy (current_server_id (client w)) = true) ∧
  (is_falsy (current_server_id (client w)) = false →
   (length (trace w) < length (trace (snd (process_query query env w))))%nat).
Proof.
  assert (Hgrow : is_falsy (current_server_id (client w)) = false →
            (length (trace w) < length (trace (snd (process_query query env w))))%nat).
  { intros Hcur. unfold process_query, messages_create. unfold_M. rewrite Hcur.
    pose proof (build_catalog_caches (servers (client w)) [] ∅ env w) as (_ & Hq & Hraise).
    destruct (build_catalog _ _ _ env w) as [[cat|e] w1]; simpl in *.
    - apply quiet_length in Hq.
      destruct (env_messages_create _ _ _ _) as [msg|response]; simpl.
      { rewrite length_app. simpl. lia. }
      match goal with
      | |- context [process_contents ?a ?b ?c ?d ?e ?f] =>
          pose proof (process_contents_quiet a b c d e f) as Hloopq;
          destruct (process_contents a b c d e f) as [[ls|e'] w2]
      end; simpl in *; apply quiet_length in Hloopq; simpl in Hloopq;
        rewrite length_app in Hloopq; simpl in Hloopq; lia.
    - apply Hraise. eauto. }
  split; [|exact Hgrow]. split.
  - intros Hrun. destruct (is_falsy (current_server_id (client w))) eqn:Hcur; [done|].
    specialize (Hgrow eq_refl). rewrite Hrun in Hgrow. simpl in Hgrow. lia.
  - intros Hcur. unfold process_query. unfold_M. by rewrite Hcur.
Qed.

Lemma process_contents_text all_tools (m : gmap string string) (ts : list string)
    (ls : LoopState) env w :
  process_contents all_tools m (List.map TextBlock ts) ls env w
  = (Ret {| messages := messages ls;
            final_text := final_text ls ++ ts;
            assistant_message_content :=
              assistant_message_content ls ++ List.map TextBlock ts |}, w).
Proof.
  revert ls. induction ts as [|t ts IH]; intros ls.
  - simpl. rewrite !app_nil_r. by destruct ls.
  - cbn [List.map]. rewrite process_contents_cons. cbn [process_content ret].
    rewrite IH. cbn [messages final_text assistant_message_content].
    by rewrite <- !app_assoc.
Qed.

(** X9. When the catalog is built and the model answers with text
    blocks only, the query makes that one model call and nothing more,
    and returns the texts joined by newlines, in order (the empty string
    for an empty response). *)
Theorem process_query_text_only
    (query : string) (env : Env) (w w1 : World)
    (catalog : list ToolDict) (m : gmap string string) (ts : list string) :
  is_falsy (current_server_id (client w)) = false →
  build_catalog (servers (client w)) [] ∅ env w = (Ret (catalog, m), w1) →
  env_messages_create env (trace w1)
    [{| role := "user"; content := ContentStr query |}] catalog
  = inr (List.map TextBlock ts) →
  process_query query env w
  = (Ret (PyStr.join PyStr.nl ts),
     {| client := client w1;
        trace := trace w1 ++ [first_model_call query catalog];
        stdout := stdout w1 |}).
Proof.
  intros Hcur Hcat Hmodel.
  unfold process_query, messages_create, sent_messages. unfold_M.
  rewrite Hcur, Hcat. simpl. rewrite Hmodel.
  by rewrite process_contents_text.
Qed.

Lemma process_query_text_only_witness :
  fst (process_query "hi" env_text Calc.world) = Ret ("Hello" +:+ PyStr.nl +:+ "world").
Proof.
  erewrite (process_query_text_only "hi" env_text Calc.world _ _ _ ["Hello"; "world"]).
  - reflexivity.
  - reflexivity.
  - vm_compute. reflexivity.
  - reflexivity.
Defined.

Lemma filter_length_app {A} (f : A → bool) (l k : list A) :
  length (List.filter f (l ++ k)) = (length (List.filter f l) + length (List.filter f k))%nat.
Proof. by rewrite List.filter_app, length_app. Qed.

(** X10. The loop over the blocks of a response is bounded by the
    response: whatever the collaborators answer, it calls a tool at most
    once and the model at most once for each tool request of the
    response, and not at all for text. *)
Theorem process_contents_calls_bounded
    (all_tools : list ToolDict) (m : gmap string string)
    (blocks : list ContentBlock) (ls : LoopState) (env : Env) (w : World) :
  let w' := snd (process_contents all_tools m blocks ls env w) in
  (tool_calls (trace w') ≤ tool_calls (trace w) + tool_requests blocks)%nat ∧
  (model_calls (trace w') ≤ model_calls (trace w) + tool_requests blocks)%nat.
Proof.
  cbv zeta. revert ls w. induction blocks as [|blk blocks IH]; intros ls w.
  - simpl. lia.
  - rewrite process_contents_cons.
    assert (Hone :
      let w1 := snd (process_content all_tools m blk ls env w) in
      (tool_calls (trace w1) ≤ tool_calls (trace w) + tool_requests [blk])%nat ∧
      (model_calls (trace w1) ≤ model_calls (trace w) + tool_requests [blk])%nat).
    { unfold process_content, ServerConnection_call_tool, messages_create, first_text.
      destruct blk as [t|id tool_name tool_args]; [simpl; lia|].
      destruct (m !! tool_name) as [server_id|]; [|simpl; lia].
      unfold_M. simpl.
      destruct (PyDict.get server_id (servers (client w))) as [server|]; [|simpl; lia].
      unfold tool_calls, model_calls, tool_requests.
      destruct (env_call_tool _ _ _ _ _) as [msg|result]; simpl.
      { rewrite !filter_length_app. simpl. lia. }
      destruct (env_messages_create _ _ _ _) as [msg|[|[t|? ? ?] response]]; simpl;
        rewrite !filter_length_app; simpl; lia. }
    assert (Hsplit : tool_requests (blk :: blocks)
                     = (tool_requests [blk] + tool_requests blocks)%nat).
    { unfold tool_requests. simpl. destruct (is_tool_use blk); simpl; lia. }
    destruct (process_content all_tools m blk ls env w) as [[ls'|e] w1]; simpl in *.
    + specialize (IH ls' w1). lia.
    + lia.
Qed.



(** X22. A query asks every server for its tools before it asks the
    model anything: when the first server of the registry fails to list
    its tools, the query raises that failure and the model is not
    called. *)
Theorem process_query_list_tools_failure
    (query : string) (env : Env) (w : World)
    (k msg : string) (conn : ServerConnection) (rest : list (string * ServerConnection)) :
  is_falsy (current_server_id (client w)) = false →
  servers (client w) = (k, conn) :: rest →
  env_list_tools env (trace w) (conn_session conn) = inl msg →
  process_query query env w
  = (Raise (ExternalError msg),
     {| client := client w;
        trace := trace w ++ [EvListTools (conn_session conn)];
        stdout := stdout w |}).
Proof.
  intros Hcur Hservers Hfail.
  unfold process_query, ServerConnection_list_tools. unfold_M.
  rewrite Hcur, Hservers. simpl.
  unfold ServerConnection_list_tools. unfold_M. by rewrite Hfail.
Qed.

Lemma process_query_list_tools_failure_witness :
  fst (process_query "hi" env_no_tool_list Calc.world)
  = Raise (ExternalError "Connection closed") ∧
  model_calls (trace (snd (process_query "hi" env_no_tool_list Calc.world))) = 0%nat.
Proof.
  rewrite (process_query_list_tools_failure "hi" env_no_tool_list Calc.world
             "calc" "Connection closed" Calc.conn []).
  - split; reflexivity.
  - reflexivity.
  - reflexivity.
  - reflexivity.
Defined.

(** * Further properties of the catalog *)

Lemma owner_fold_none x (l : list (string * list Tool)) acc :
  fold_left
    (λ acc (item : string * list Tool),
       if bool_decide (x ∈ List.map name item.2) then Some item.1 else acc) l acc = None
  ↔ acc = None ∧ ∀ item, item ∈ l → x ∉ List.map name item.2.
Proof.
  revert acc. induction l as [|item l IH]; intros acc; simpl.
  - split; [intros ->; split; [done|]; intros item Hin; by apply elem_of_nil in Hin|].
    by intros [-> _].
  - rewrite IH. split.
    + intros [Hacc Hall]. case_bool_decide as Hx; [discriminate|].
      split; [done|]. intros item' Hin. apply elem_of_cons in Hin as [->|Hin]; auto.
    + intros [-> Hall].
      rewrite bool_decide_eq_false_2 by (apply Hall, list_elem_of_here).
      split; [done|]. intros item' Hin. apply Hall. by apply list_elem_of_further.
Qed.

Lemma owner_fold_skip x (l : list (string * list Tool)) acc :
  (∀ item, item ∈ l → x ∉ List.map name item.2) →
  fold_left
    (λ acc (item : string * list Tool),
       if bool_decide (x ∈ List.map name item.2) then Some item.1 else acc) l acc = acc.
Proof.
  revert acc. induction l as [|item l IH]; intros acc Hall; simpl; [done|].
  rewrite bool_decide_eq_false_2 by (apply Hall, list_elem_of_here).
  apply IH. intros item' Hin. apply Hall. by apply list_elem_of_further.
Qed.

Lemma list_tools_ok key conn env w ts :
  env_list_tools env (trace w) (conn_session conn) = inr ts →
  ServerConnection_list_tools key conn env w
  = (Ret ts,
     {| client :=
          set_servers (PyDict.alter (set_tools ts) key (servers (client w))) (client w);
        trace := trace w ++ [EvListTools (conn_session conn)];
        stdout := stdout w |}).
Proof.
  intros Hts. unfold ServerConnection_list_tools. unfold_M. simpl. by rewrite Hts.
Qed.

Lemma build_catalog_run env items :
  ∀ (w : World) (all_tools : list ToolDict) (m0 : gmap string string) replies,
    tool_replies env (trace w) items = Some replies →
    ∃ (m : gmap string string) w',
      build_catalog items all_tools m0 env w
      = (Ret (all_tools ++ catalog_of replies, m), w') ∧
      List.map fst replies = PyDict.keys items ∧
      ∀ x, m !! x =
           fold_left
             (λ acc (item : string * list Tool),
                if bool_decide (x ∈ List.map name item.2) then Some item.1 else acc)
             replies (m0 !! x).
Proof.
  induction items as [|[k conn] items IH]; intros w all_tools m0 replies Hreplies.
  - injection Hreplies as <-. exists m0, w. simpl. by rewrite app_nil_r.
  - cbn [tool_replies] in Hreplies.
    destruct (env_list_tools env (trace w) (conn_session conn)) as [msg|ts] eqn:Hts;
      [discriminate|].
    destruct (tool_replies env (trace w ++ [EvListTools (conn_session conn)]) items)
      as [l|] eqn:Hrest; [|discriminate].
    injection Hreplies as <-.
    cbn [build_catalog]. unfold bind at 1.
    rewrite (list_tools_ok k conn env w ts Hts).
    match goal with
    | |- context [build_catalog items ?a ?b env ?w1] =>
        destruct (IH w1 a b l) as (m & w' & Hrun & Hkeys & Hm); [exact Hrest|]
    end.
    exists m, w'. split; [|split].
    + rewrite Hrun, add_tools_fst. unfold catalog_of. simpl.
      by rewrite <- app_assoc.
    + simpl. f_equal. exact Hkeys.
    + intros x. rewrite Hm. simpl. f_equal.
      case_bool_decide as Hx.
      * by apply add_tools_lookup.
      * by apply add_tools_lookup_other.
Qed.

(** X12. Over any registry whose servers all list their tools, the
    catalog is every tool of every server, in the order of the registry,
    under its prefixed description; a name is owned by the last server
    that lists it, and a name that no server lists has no owner. *)
Theorem build_catalog_last_wins
    (env : Env) (w : World) (items : list (string * ServerConnection))
    (replies : list (string * list Tool)) :
  tool_replies env (trace w) items = Some replies →
  ∃ (m : gmap string string) w',
    build_catalog items [] ∅ env w = (Ret (catalog_of replies, m), w') ∧
    List.map fst replies = PyDict.keys items ∧
    (∀ x l1 k ts l2,
       replies = l1 ++ (k, ts) :: l2 →
       x ∈ List.map name ts →
       (∀ item, item ∈ l2 → x ∉ List.map name item.2) →
       m !! x = Some k) ∧
    (∀ x, m !! x = None ↔ ∀ item, item ∈ replies → x ∉ List.map name item.2).
Proof.
  intros Hreplies.
  destruct (build_catalog_run env items w [] ∅ replies Hreplies)
    as (m & w' & Hrun & Hkeys & Hm).
  exists m, w'. split; [exact Hrun|]. split; [exact Hkeys|]. split.
  - intros x l1 k ts l2 -> Hx Hlater.
    rewrite Hm, fold_left_app. simpl.
    rewrite bool_decide_eq_true_2 by done. by apply owner_fold_skip.
  - intros x. rewrite Hm, lookup_empty, owner_fold_none. split; [by intros [_ ?]|done].
Qed.

Lemma build_catalog_last_wins_witness :
  ∃ (m : gmap string string) w',
    build_catalog (servers (client collision_world)) [] ∅ env_collision collision_world
    = (Ret (catalog_of [("a] b", [x_tool "c"]); ("a", [x_tool "b] c"])], m), w') ∧
    m !! "x" = Some "a" ∧ m !! "y" = None.
Proof.
  destruct (build_catalog_last_wins env_collision collision_world
              (servers (client collision_world))
              [("a] b", [x_tool "c"]); ("a", [x_tool "b] c"])])
    as (m & w' & Hrun & _ & Hlast & Hnone).
  - vm_compute. reflexivity.
  - exists m, w'. split; [exact Hrun|]. split.
    + apply (Hlast "x" [("a] b", [x_tool "c"])] "a" [x_tool "b] c"] []).
      * reflexivity.
      * apply list_elem_of_here.
      * intros item Hin. by apply elem_of_nil in Hin.
    + apply Hnone. intros item Hin Hy.
      apply elem_of_cons in Hin as [->|Hin]; [|apply elem_of_cons in Hin as [->|Hin]].
      * simpl in Hy. apply elem_of_cons in Hy as [Hy|Hy]; [discriminate|].
        by apply elem_of_nil in Hy.
      * simpl in Hy. apply elem_of_cons in Hy as [Hy|Hy]; [discriminate|].
        by apply elem_of_nil in Hy.
      * by apply elem_of_nil in Hin.
Defined.

(** * The shared assistant turn *)










(** * Further properties of the interactive loop *)

(** X20. The parts of a command line are never empty and never hold
    white space: an id or a path typed after [/connect], [/switch] or
    [/disconnect] has no space in it. *)
Theorem split_words (s word : string) :
  word ∈ PyStr.split s → word ≠ EmptyString ∧ has_space word = false.
Proof.
  assert (Hlen : ∀ n s word, (String.length s ≤ n)%nat → word ∈ PyStr.split s →
            word ≠ EmptyString ∧ has_space word = false).
  { clear. induction n as [|n IH]; intros s word Hn Hin.
    - destruct s; [by apply elem_of_nil in Hin|simpl in Hn; lia].
    - destruct (split_cases s) as [->|[(c & s1 & -> & Hw)|[(c & s1 & -> & _ & Hs & _)
        |[(c1 & c2 & s2 & -> & _ & Hs & _)|(c1 & c2 & c3 & s3 & -> & _ & Hs & _)]]]].
      + by apply elem_of_nil in Hin.
      + pose proof (space_width_zero_head c s1 Hw) as Hc.
        assert (IH1 : ∀ word, word ∈ PyStr.split s1 →
                  word ≠ EmptyString ∧ has_space word = false).
        { intros word' Hin'. apply (IH s1); [simpl in Hn; lia|done]. }
        rewrite (split_word c s1 Hw) in Hin.
        destruct (PyStr.split s1) as [|w ws].
        * apply list_elem_of_singleton in Hin as ->. split; [done|]. simpl. by rewrite Hc.
        * destruct (match s1 with
                    | EmptyString => true
                    | String _ _ => negb (Nat.eqb (PyStr.space_width s1) 0)
                    end).
          -- apply elem_of_cons in Hin as [->|Hin]; [|by apply IH1].
             split; [done|]. simpl. by rewrite Hc.
          -- apply elem_of_cons in Hin as [->|Hin].
             ++ split; [done|]. simpl. rewrite Hc. simpl.
                apply IH1, list_elem_of_here.
             ++ apply IH1. by apply list_elem_of_further.
      + rewrite Hs in Hin. apply (IH s1); [simpl in Hn; lia|done].
      + rewrite Hs in Hin. apply (IH s2); [simpl in Hn; lia|done].
      + rewrite Hs in Hin. apply (IH s3); [simpl in Hn; lia|done]. }
  by apply (Hlen (String.length s)).
Qed.

Lemma split_words_witness :
  has_space "calc" = false ∧ no_space "calc".
Proof.
  destruct (split_words "  /connect  calc   calc.py " "calc") as [_ Hspace].
  - vm_compute. apply list_elem_of_further, list_elem_of_here.
  - split; [exact Hspace|reflexivity].
Defined.



(** X14. When the terminal has no more input, [input] raises at every
    turn, the handler of the loop catches it, and the loop goes on
    asking: after any number of turns it is still running, having
    printed the error once a turn and changed nothing of the client. *)
Theorem chat_turns_without_input (env : Env) (msg : string) (fuel : nat) (w : World) :
  (∀ t, env_input env t prompt = inl msg) →
  chat_turns fuel env w
  = (Ret false,
     {| client := client w;
        trace := trace w ++ replicate fuel (EvInput prompt);
        stdout := stdout w ++ replicate fuel (error_line (ExternalError msg)) |}).
Proof.
  intros Hinput. revert w. induction fuel as [|fuel IH]; intros w.
  - simpl. rewrite !app_nil_r. by destruct w.
  - cbn [chat_turns]. unfold bind at 1.
    assert (Hturn : chat_iteration env w
                    = (Ret true, with_line (after_input w) (error_line (ExternalError msg)))).
    { unfold chat_iteration. unfold_M. by rewrite Hinput. }
    rewrite Hturn, IH. unfold with_line, after_input. simpl.
    by rewrite <- !app_assoc.
Qed.

Lemma chat_turns_without_input_witness :
  chat_turns 3 env_eof Calc.world
  = (Ret false,
     {| client := client Calc.world;
        trace := trace Calc.world ++ replicate 3 (EvInput prompt);
        stdout := stdout Calc.world
                  ++ replicate 3 (PyStr.nl +:+ "Error: EOF when reading a line") |}).
Proof.
  apply (chat_turns_without_input env_eof "EOF when reading a line" 3 Calc.world).
  reflexivity.
Defined.

Lemma lower_starts_with_slash cmd s :
  PyStr.lower cmd = String "/" s → ∃ s', cmd = String "/" s'.
Proof.
  destruct cmd as [|c cmd]; [discriminate|]. simpl. intros [= Hc _].
  apply lower_char_slash in Hc as ->. eauto.
Qed.

Lemma command_starts_with_slash line cmd rest s :
  PyStr.split (PyStr.strip line) = cmd :: rest →
  cmd = String "/" s →
  PyStr.startswith (PyStr.strip line) "/" = true.
Proof.
  intros Hsplit ->. pose proof (strip_head line) as Hhead.
  destruct (PyStr.strip line) as [|c u]; [discriminate|].
  destruct (split_head c u Hhead) as (w0 & ws & Hw).
  rewrite Hw in Hsplit. injection Hsplit as -> _ _. by destruct u.
Qed.

(** X16. A turn leaves the loop exactly when the line read, stripped
    and in lower case, is [/quit]; it then changes nothing.  A line
    with anything after [/quit] does not leave the loop. *)
Theorem chat_iteration_quit (env : Env) (w : World) (line : string) :
  env_input env (trace w) prompt = inr line →
  (fst (chat_iteration env w) = Ret false ↔ PyStr.lower (PyStr.strip line) = "/quit") ∧
  (PyStr.lower (PyStr.strip line) = "/quit" →
   chat_iteration env w = (Ret false, after_input w)).
Proof.
  intros Hinput.
  assert (Hquit : PyStr.lower (PyStr.strip line) = "/quit" →
                  chat_iteration env w = (Ret false, after_input w)).
  { intros Hq. apply String.eqb_eq in Hq.
    unfold chat_iteration. unfold_M. by rewrite Hinput, Hq. }
  split; [|exact Hquit]. split; [|by intros Hq; rewrite (Hquit Hq)].
  intros Hret. destruct (String.eqb_spec (PyStr.lower (PyStr.strip line)) "/quit") as [|Hne];
    [done|]. exfalso. apply String.eqb_neq in Hne.
  revert Hret. unfold chat_iteration, try_except, bind at 1, external.
  rewrite Hinput. cbv beta iota. rewrite Hne. unfold bind at 1.
  match goal with
  | |- context [match ?body env ?w1 with _ => _ end] => destruct (body env w1) as [[b|e] w2]
  end; simpl; discriminate.
Qed.

Lemma chat_iteration_quit_witness :
  chat_iteration (env_typing "  /QUIT ") Calc.world = (Ret false, after_input Calc.world) ∧
  chat_iteration (env_typing (PyStr.nbsp +:+ "/quit")) Calc.world
  = (Ret false, after_input Calc.world) ∧
  fst (chat_iteration (env_typing "/quit now") Calc.world) ≠ Ret false.
Proof.
  split; [|split].
  - apply (chat_iteration_quit (env_typing "  /QUIT ") Calc.world "  /QUIT "); reflexivity.
  - apply (chat_iteration_quit (env_typing (PyStr.nbsp +:+ "/quit")) Calc.world
             (PyStr.nbsp +:+ "/quit")); reflexivity.
  - intros Hret.
    apply (chat_iteration_quit (env_typing "/quit now") Calc.world "/quit now") in Hret;
      [discriminate|reflexivity].
Defined.

(** X15. A line that starts with [/] and that no branch of the loop
    takes (an unknown command, [/help] included, or [/connect],
    [/switch], [/disconnect] with too few parts) prints the hint about
    the command format and changes nothing else; the loop goes on. *)
Theorem chat_iteration_invalid_command
    (env : Env) (w : World) (line cmd s : string) (rest : list string) :
  env_input env (trace w) prompt = inr line →
  PyStr.split (PyStr.strip line) = cmd :: rest →
  cmd = String "/" s →
  PyStr.lower (PyStr.strip line) ≠ "/quit" →
  dispatches (PyStr.lower cmd) (length (cmd :: rest)) = false →
  chat_iteration env w = (Ret true, with_line (after_input w) invalid_command_line).
Proof.
  intros Hinput Hsplit Hcmd Hquit Hnone.
  apply String.eqb_neq in Hquit.
  unfold dispatches in Hnone.
  apply orb_false_iff in Hnone as [Hnone Hdisc].
  apply orb_false_iff in Hnone as [Hnone Hlist].
  apply orb_false_iff in Hnone as [Hconn Hswitch].
  unfold chat_iteration. unfold_M. rewrite Hinput, Hquit.
  rewrite (command_starts_with_slash line cmd rest s Hsplit Hcmd).
  rewrite Hsplit. unfold item. unfold_M. cbn [lookup list_lookup].
  by rewrite Hconn, Hswitch, Hlist, Hdisc.
Qed.

Lemma chat_iteration_invalid_command_witness :
  chat_iteration (env_typing "/help") Calc.world
  = (Ret true, with_line (after_input Calc.world) invalid_command_line) ∧
  chat_iteration (env_typing "/connect calc") Calc.world
  = (Ret true, with_line (after_input Calc.world) invalid_command_line).
Proof.
  split.
  - apply (chat_iteration_invalid_command (env_typing "/help") Calc.world
             "/help" "/help" "help" []); try reflexivity. discriminate.
  - apply (chat_iteration_invalid_command (env_typing "/connect calc") Calc.world
             "/connect calc" "/connect" "connect" ["calc"]); try reflexivity. discriminate.
Defined.

Lemma switch_server_returns a env w : ∃ b w', switch_server a env w = (Ret b, w').
Proof.
  unfold switch_server. unfold_M. destruct (PyDict.mem a (servers (client w))); eauto.
Qed.

(** X17. [/switch <id>] is [switch_server] on that id, and
    [/connect <id> <path>] is [connect_to_server] on the first two
    parts after the command, further parts being ignored; when the
    connect raises, the handler prints the error after [Error: ] and
    keeps whatever the failed connect has changed.  In both cases the
    loop goes on. *)
Theorem chat_iteration_delegates
    (env : Env) (w : World) (line cmd a : string) (rest : list string) :
  env_input env (trace w) prompt = inr line →
  PyStr.split (PyStr.strip line) = cmd :: a :: rest →
  (PyStr.lower cmd = "/switch" →
   chat_iteration env w = (Ret true, snd (switch_server a env (after_input w)))) ∧
  (PyStr.lower cmd = "/connect" →
   ∀ p rest', rest = p :: rest' →
     chat_iteration env w
     = match connect_to_server a p env (after_input w) with
       | (Ret _, w') => (Ret true, w')
       | (Raise e, w') => (Ret true, with_line w' (error_line e))
       end).
Proof.
  intros Hinput Hsplit.
  pose proof (split_two_words_not_quit _ _ _ _ Hsplit) as Hquit.
  apply String.eqb_neq in Hquit.
  split.
  - intros Hlower.
    destruct (lower_starts_with_slash cmd "switch" Hlower) as [s Hcmd].
    unfold chat_iteration, try_except, bind at 1, external.
    rewrite Hinput. cbv beta iota. rewrite Hquit.
    rewrite (command_starts_with_slash line cmd (a :: rest) s Hsplit Hcmd).
    rewrite Hsplit. unfold item. unfold bind at 1. unfold bind at 1.
    cbn [lookup list_lookup ret]. rewrite Hlower.
    cbn [String.eqb Ascii.eqb Bool.eqb andb length Nat.leb].
    unfold getattr_method.
    change (PyDict.get "switch_server" MCPClient_methods) with (Some Meth_switch_server).
    unfold bind, ret. cbn [apply_method]. unfold bind, ret. fold (after_input w).
    by destruct (switch_server_returns a env (after_input w)) as (b & w' & ->).
  - intros Hlower p rest' ->.
    destruct (lower_starts_with_slash cmd "connect" Hlower) as [s Hcmd].
    unfold chat_iteration, try_except, bind at 1, external.
    rewrite Hinput. cbv beta iota. rewrite Hquit.
    rewrite (command_starts_with_slash line cmd (a :: p :: rest') s Hsplit Hcmd).
    rewrite Hsplit. unfold item. unfold bind at 1. unfold bind at 1.
    cbn [lookup list_lookup ret]. rewrite Hlower.
    cbn [String.eqb Ascii.eqb Bool.eqb andb length Nat.leb].
    unfold getattr_method.
    change (PyDict.get "connect_to_server" MCPClient_methods)
      with (Some Meth_connect_to_server).
    unfold bind, ret. cbn [apply_method]. fold (after_input w).
    destruct (connect_to_server a p env (after_input w)) as [[[]|e] w']; [done|].
    unfold print, with_line, error_line. reflexivity.
Qed.

Lemma chat_iteration_delegates_witness :
  current_server_id
    (client (snd (chat_iteration (env_typing "/SWITCH b now") two_servers)))
  = Some "b" ∧
  current_server_id
    (client (snd (chat_iteration (env_typing ("/switch b" +:+ PyStr.nbsp +:+ "c"))
                    two_servers)))
  = Some "b".
Proof.
  split.
  - destruct (chat_iteration_delegates (env_typing "/SWITCH b now") two_servers
                "/SWITCH b now" "/SWITCH" "b" ["now"]) as [Hswitch _].
    + reflexivity.
    + reflexivity.
    + rewrite Hswitch by reflexivity. vm_compute. reflexivity.
  - destruct (chat_iteration_delegates
                (env_typing ("/switch b" +:+ PyStr.nbsp +:+ "c")) two_servers
                ("/switch b" +:+ PyStr.nbsp +:+ "c") "/switch" "b" ["c"]) as [Hswitch _].
    + reflexivity.
    + vm_compute. reflexivity.
    + rewrite Hswitch by reflexivity. vm_compute. reflexivity.
Defined.

(** * Further properties of the entry point and of the listing *)

Lemma cleanup_run env w :
  cleanup env w
  = (match env_aclose env (trace w) (exit_stack (client w)) with
     | inl msg => Raise (ExternalError msg)
     | inr _ => Ret tt
     end, cleaned w).
Proof.
  unfold cleanup, cleaned. unfold_M. simpl.
  by destruct (env_aclose env (trace w) (exit_stack (client w))) as [msg|[]].
Qed.

(** X18. When a connect of the start-up raises, [main] never enters
    the interactive loop: the remaining pairs are not connected and no
    line is read; [cleanup] exits the contexts entered so far and
    empties the exit stack, and an exception leaves [main] uncaught,
    the one of the connect, or the one of [cleanup] if that fails
    too. *)
Theorem main_startup_failure
    (fuel : nat) (argv : list string) (env : Env) (w w1 : World) (k : nat) (e : Exn) :
  (1 ≤ k)%nat →
  length argv = (1 + 2 * k)%nat →
  connect_all (pairs (tail argv)) env (fresh_client w) = (Raise e, w1) →
  main fuel argv env w
  = (Uncaught
       match env_aclose env (trace w1) (exit_stack (client w1)) with
       | inl msg => ExternalError msg
       | inr _ => e
       end,
     cleaned w1).
Proof.
  intros Hk Hlen Hfail. unfold main.
  pose proof (Nat.div_mod_eq (length argv) 2) as Hdiv.
  pose proof (Nat.mod_upper_bound (length argv) 2) as Hmod.
  destruct (Nat.ltb_spec (length argv) 3) as [Hshort|_]; [lia|].
  destruct (Nat.eqb_spec (length argv mod 2) 1) as [_|Heven]; [|lia].
  cbn [negb]. unfold bind at 1. unfold set_client at 1. cbv beta iota.
  unfold try_finally, bind at 1. fold (fresh_client w).
  rewrite (connect_loop_pairs argv k) by done. rewrite Hfail.
  rewrite cleanup_run.
  by destruct (env_aclose env (trace w1) (exit_stack (client w1))).
Qed.

Lemma main_startup_failure_witness :
  main 5 ["main.py"; "calc"; "calc.rb"; "b"; "b.js"] Calc.env World_init
  = (Uncaught (ValueError "Server script must be a .py or .js file"),
     {| client := MCPClient_init; trace := [EvAclose []]; stdout := [] |}).
Proof.
  apply (main_startup_failure 5 ["main.py"; "calc"; "calc.rb"; "b"; "b.js"] Calc.env
           World_init World_init 2 (ValueError "Server script must be a .py or .js file"));
    first [lia | reflexivity].
Defined.

Lemma print_all_run lines env w :
  print_all lines env w
  = (Ret tt, {| client := client w; trace := trace w; stdout := stdout w ++ lines |}).
Proof.
  revert w. induction lines as [|l lines IH]; intros w.
  - simpl. rewrite app_nil_r. by destruct w.
  - cbn [print_all]. unfold bind, print. rewrite IH. simpl. by rewrite <- app_assoc.
Qed.

(** X19. [list_servers] only reads: it returns [None], calls no
    collaborator and leaves the client as it is; it prints one line when
    no server is connected, and otherwise a header and one line for each
    server of the registry. *)
Theorem list_servers_read_only (env : Env) (w : World) :
  let r := list_servers env w in
  fst r = Ret tt ∧ client (snd r) = client w ∧ trace (snd r) = trace w ∧
  ∃ lines,
    stdout (snd r) = stdout w ++ lines ∧
    length lines = match servers (client w) with
                   | [] => 1%nat
                   | _ :: _ => S (length (servers (client w)))
                   end ∧
    (servers (client w) = [] → lines = ["No servers connected"]).
Proof.
  cbv zeta.
  assert (Hrun : ∃ lines,
    list_servers env w
    = (Ret tt, {| client := client w; trace := trace w; stdout := stdout w ++ lines |}) ∧
    length lines = match servers (client w) with
                   | [] => 1%nat
                   | _ :: _ => S (length (servers (client w)))
                   end ∧
    (servers (client w) = [] → lines = ["No servers connected"])).
  { unfold list_servers. unfold bind, get_client.
    destruct (servers (client w)) as [|item d] eqn:Hservers.
    - exists ["No servers connected"]. by unfold print.
    - eexists. split.
      { unfold print at 1. cbv beta iota. rewrite print_all_run. simpl.
        rewrite <- app_assoc. reflexivity. }
      split; [|discriminate]. simpl. by rewrite length_map. }
  destruct Hrun as (lines & -> & Hlen & Hempty). simpl. eauto 10.
Qed.

Lemma list_tools_with_current o key conn env w :
  ServerConnection_list_tools key conn env (with_current o w)
  = ((ServerConnection_list_tools key conn env w).1,
     with_current o (ServerConnection_list_tools key conn env w).2).
Proof.
  unfold ServerConnection_list_tools. unfold_M. simpl.
  by destruct (env_list_tools _ _ _).
Qed.

Lemma build_catalog_with_current o items all_tools (m : gmap string string) env w :
  build_catalog items all_tools m env (with_current o w)
  = ((build_catalog items all_tools m env w).1,
     with_current o (build_catalog items all_tools m env w).2).
Proof.
  revert all_tools m w. induction items as [|[k conn] items IH]; intros all_tools m w;
    [done|].
  cbn [build_catalog]. unfold bind. rewrite list_tools_with_current.
  destruct (ServerConnection_list_tools k conn env w) as [[ts|e] w1]; simpl; [|done].
  apply IH.
Qed.

Lemma process_content_with_current o all_tools (m : gmap string string) blk ls env w :
  process_content all_tools m blk ls env (with_current o w)
  = ((process_content all_tools m blk ls env w).1,
     with_current o (process_content all_tools m blk ls env w).2).
Proof.
  unfold process_content, ServerConnection_call_tool, messages_create, first_text.
  destruct blk as [t|id tool_name tool_args]; [done|].
  destruct (m !! tool_name) as [server_id|]; [|done].
  unfold_M. simpl.
  destruct (PyDict.get server_id (servers (client w))) as [server|]; [|done].
  destruct (env_call_tool _ _ _ _ _) as [msg|result]; simpl; [done|].
  by destruct (env_messages_create _ _ _ _) as [msg|[|[t|? ? ?] response]].
Qed.

Lemma process_contents_with_current o all_tools (m : gmap string string) blocks ls env w :
  process_contents all_tools m blocks ls env (with_current o w)
  = ((process_contents all_tools m blocks ls env w).1,
     with_current o (process_contents all_tools m blocks ls env w).2).
Proof.
  revert ls w. induction blocks as [|blk blocks IH]; intros ls w; [done|].
  rewrite !process_contents_cons, process_content_with_current.
  destruct (process_content all_tools m blk ls env w) as [[ls'|e] w1]; simpl; [|done].
  apply IH.
Qed.

(** X23. Which server is current has no effect on a query that is
    accepted: the catalog, the calls made, the tools dispatched and the
    answer are the same for any two current servers, and so is the
    client afterwards, but for the current server itself.  [/switch]
    does not change how queries are answered. *)
Theorem process_query_ignores_current
    (query : string) (env : Env) (w : World) (o : option string) :
  is_falsy (current_server_id (client w)) = false →
  is_falsy o = false →
  process_query query env (with_current o w)
  = ((process_query query env w).1, with_current o (process_query query env w).2).
Proof.
  intros Hcur Ho. unfold process_query, messages_create. unfold_M.
  cbn [client with_current set_current_server_id current_server_id servers].
  rewrite Hcur, Ho.
  change {| client := set_current_server_id o (client w);
            trace := trace w; stdout := stdout w |} with (with_current o w).
  rewrite build_catalog_with_current.
  destruct (build_catalog (servers (client w)) [] ∅ env w) as [[cat|e] w1]; simpl; [|done].
  destruct (env_messages_create _ _ _ _) as [msg|response]; simpl; [done|].
  match goal with
  | |- context [process_contents ?a ?b ?c ?d env
                  {| client := set_current_server_id o ?cl; trace := ?t; stdout := ?s |}] =>
      change {| client := set_current_server_id o cl; trace := t; stdout := s |}
        with (with_current o {| client := cl; trace := t; stdout := s |});
      rewrite process_contents_with_current;
      destruct (process_contents a b c d env {| client := cl; trace := t; stdout := s |})
        as [[ls|e'] w2]
  end; done.
Qed.

Lemma process_query_ignores_current_witness :
  fst (process_query "What is 2+3?" Calc.env (with_current (Some "b") Calc.world))
  = fst (process_query "What is 2+3?" Calc.env Calc.world).
Proof.
  by rewrite (process_query_ignores_current "What is 2+3?" Calc.env Calc.world (Some "b")).
Defined.

(** X24. Once every connect of the start-up has returned and the
    interactive loop has been left by [/quit], [main] exits the
    contexts of all the connections in one [cleanup], which empties the
    exit stack, and returns; if [cleanup] fails, its exception leaves
    [main] uncaught. *)
Theorem main_after_startup
    (fuel : nat) (argv : list string) (env : Env) (w w1 w2 : World) (k : nat) :
  (1 ≤ k)%nat →
  length argv = (1 + 2 * k)%nat →
  connect_all (pairs (tail argv)) env (fresh_client w) = (Ret tt, w1) →
  chat_loop fuel env w1 = (Ret true, w2) →
  main fuel argv env w
  = (match env_aclose env (trace w2) (exit_stack (client w2)) with
     | inl msg => Uncaught (ExternalError msg)
     | inr _ => Returned true
     end,
     cleaned w2).
Proof.
  intros Hk Hlen Hok Hloop. unfold main.
  pose proof (Nat.div_mod_eq (length argv) 2) as Hdiv.
  pose proof (Nat.mod_upper_bound (length argv) 2) as Hmod.
  destruct (Nat.ltb_spec (length argv) 3) as [Hshort|_]; [lia|].
  destruct (Nat.eqb_spec (length argv mod 2) 1) as [_|Heven]; [|lia].
  cbn [negb]. unfold bind at 1. unfold set_client at 1. cbv beta iota.
  unfold try_finally, bind at 1. fold (fresh_client w).
  rewrite (connect_loop_pairs argv k) by done. rewrite Hok, Hloop.
  rewrite cleanup_run.
  by destruct (env_aclose env (trace w2) (exit_stack (client w2))).
Qed.

Lemma main_after_startup_witness :
  main 4 ["main.py"; "calc"; "calc.py"] Calc.env World_init
  = (Returned true, cleaned (snd (chat_loop 4 Calc.env Calc.world))).
Proof.
  rewrite (main_after_startup 4 ["main.py"; "calc"; "calc.py"] Calc.env
             World_init Calc.world (snd (chat_loop 4 Calc.env Calc.world)) 1%nat).
  - reflexivity.
  - lia.
  - reflexivity.
  - vm_compute. reflexivity.
  - vm_compute. reflexivity.
Defined.

Ltac solve_prefix :=
  first [ reflexivity
        | by apply prefix_app_r
        | rewrite <- app_assoc; by apply prefix_app_r ].

(** X25. The loop over the blocks of a response only appends: when it
    returns, the answer fragments, the messages of the conversation and
    the blocks of the assistant turn it started from are the beginning
    of the ones it ends with. *)
Theorem process_contents_append_only
    (all_tools : list ToolDict) (m : gmap string string)
    (blocks : list ContentBlock) (ls ls' : LoopState) (env : Env) (w : World) :
  fst (process_contents all_tools m blocks ls env w) = Ret ls' →
  final_text ls `prefix_of` final_text ls' ∧
  messages ls `prefix_of` messages ls' ∧
  assistant_message_content ls `prefix_of` assistant_message_content ls'.
Proof.
  revert ls w. induction blocks as [|blk blocks IH]; intros ls w Hret.
  - simpl in Hret. by injection Hret as <-.
  - rewrite process_contents_cons in Hret.
    assert (Hone : ∀ ls1, fst (process_content all_tools m blk ls env w) = Ret ls1 →
              final_text ls `prefix_of` final_text ls1 ∧
              messages ls `prefix_of` messages ls1 ∧
              assistant_message_content ls `prefix_of` assistant_message_content ls1).
    { intros ls1.
      unfold process_content, ServerConnection_call_tool, messages_create, first_text.
      destruct blk as [t|id tool_name tool_args].
      { simpl. intros [= <-]. simpl. repeat split; solve_prefix. }
      destruct (m !! tool_name) as [server_id|];
        [|simpl; intros [= <-]; simpl; repeat split; solve_prefix].
      unfold_M. simpl.
      destruct (PyDict.get server_id (servers (client w))) as [server|]; [|done].
      destruct (env_call_tool _ _ _ _ _) as [msg|result]; simpl; [done|].
      destruct (env_messages_create _ _ _ _) as [msg|[|[t|? ? ?] response]]; simpl;
        try done.
      intros [= <-]. simpl. repeat split; solve_prefix. }
    destruct (process_content all_tools m blk ls env w) as [[ls1|e] w1]; simpl in *;
      [|done].
    destruct (Hone ls1 eq_refl) as (H1 & H2 & H3).
    destruct (IH ls1 w1 Hret) as (H1' & H2' & H3').
    repeat split; by etrans.
Qed.

Lemma process_contents_append_only_witness :
  ["so far"] `prefix_of`
    ["so far"; "Error: Tool add not found on any connected server."; "done"].
Proof.
  destruct (process_contents_append_only [] ∅
              [ToolUseBlock "toolu_1" "add" Calc.add_args; TextBlock "done"]
              (mkLoopState [] ["so far"] [])
              (mkLoopState [] ["so far";
                               "Error: Tool add not found on any connected server.";
                               "done"] [TextBlock "done"])
              Calc.env Calc.world) as [Htext _].
  - vm_compute. reflexivity.
  - exact Htext.
Defined.

(** X26. A connect whose handshake fails after the transport and the
    session were opened leaves no entry in the registry, but it keeps
    both contexts on the exit stack until [cleanup] and has already
    overwritten the [stdio], [write] and [session] attributes of the
    client with those of the failed attempt. *)
Theorem connect_to_server_initialize_failure
    (env : Env) (w : World) (a p msg : string) (r wr s : Handle) :
  let t := trace w in
  let e1 := EvStdioClient (if PyStr.endswith p ".py" then "python" else "node") [p] in
  let e2 := EvClientSession r wr in
  a ∉ PyDict.keys (servers (client w)) →
  (PyStr.endswith p ".py" || PyStr.endswith p ".js")%bool = true →
  env_stdio_client env t (if PyStr.endswith p ".py" then "python" else "node") [p]
  = inr (r, wr) →
  env_client_session env (t ++ [e1]) r wr = inr s →
  env_initialize env (t ++ [e1; e2]) s = inl msg →
  connect_to_server a p env w =
  (Raise (ExternalError msg),
   {| client :=
        {| session := Some s; stdio := Some r; write := Some wr;
           exit_stack := exit_stack (client w) ++ [CtxStdioClient r wr; CtxClientSession s];
           servers := servers (client w);
           current_server_id := current_server_id (client w) |};
      trace := t ++ [e1; e2; EvInitialize s];
      stdout := stdout w |}).
Proof.
  cbv zeta. intros Hfresh Hext Hspawn Hsession Hinit.
  apply mem_false in Hfresh as Hmem.
  unfold connect_to_server. unfold_M. simpl. rewrite Hmem, Hext. simpl.
  rewrite Hspawn. simpl. rewrite Hsession. simpl.
  rewrite <- ?app_assoc. simpl. rewrite Hinit. simpl.
  unfold set_session, push_context, set_stdio_write. simpl.
  by rewrite <- ?app_assoc.
Qed.

Lemma connect_to_server_initialize_failure_witness :
  session (client (snd (connect_to_server "calc" "calc.py" env_no_initialize World_init)))
  = Some 1%nat ∧
  exit_stack (client (snd (connect_to_server "calc" "calc.py" env_no_initialize World_init)))
  = [CtxStdioClient 0%nat 1%nat; CtxClientSession 1%nat].
Proof.
  rewrite (connect_to_server_initialize_failure env_no_initialize World_init
             "calc" "calc.py" "initialize failed" 0%nat 1%nat 1%nat).
  - split; reflexivity.
  - apply not_elem_of_nil.
  - reflexivity.
  - reflexivity.
  - reflexivity.
  - reflexivity.
Defined.

(** X27. A connect whose first fetch of the tool list fails raises that
    failure after the connection was stored: the registry then holds
    the new id, last, with an empty cache of tools, and that id is
    current if there was no current server; nothing is printed. *)
Theorem connect_to_server_fetch_failure
    (env : Env) (w : World) (a p msg : string) (r wr s : Handle) :
  let t := trace w in
  let e1 := EvStdioClient (if PyStr.endswith p ".py" then "python" else "node") [p] in
  let e2 := EvClientSession r wr in
  let e3 := EvInitialize s in
  a ∉ PyDict.keys (servers (client w)) →
  (PyStr.endswith p ".py" || PyStr.endswith p ".js")%bool = true →
  env_stdio_client env t (if PyStr.endswith p ".py" then "python" else "node") [p]
  = inr (r, wr) →
  env_client_session env (t ++ [e1]) r wr = inr s →
  env_initialize env (t ++ [e1; e2]) s = inr tt →
  env_list_tools env (t ++ [e1; e2; e3]) s = inl msg →
  connect_to_server a p env w =
  (Raise (ExternalError msg),
   {| client :=
        {| session := Some s; stdio := Some r; write := Some wr;
           exit_stack := exit_stack (client w) ++ [CtxStdioClient r wr; CtxClientSession s];
           servers := servers (client w) ++ [(a, mkServerConnection a s r wr [])];
           current_server_id :=
             match current_server_id (client w) with
             | None => Some a
             | Some k => Some k
             end |};
      trace := t ++ [e1; e2; e3; EvListTools s];
      stdout := stdout w |}).
Proof.
  cbv zeta. intros Hfresh Hext Hspawn Hsession Hinit Htools.
  apply mem_false in Hfresh as Hmem.
  unfold connect_to_server, ServerConnection_list_tools.
  unfold_M. simpl. rewrite Hmem, Hext. simpl.
  rewrite Hspawn. simpl. rewrite Hsession. simpl.
  rewrite <- ?app_assoc. simpl. rewrite Hinit. simpl.
  rewrite (set_fresh a _ _ Hfresh).
  destruct (current_server_id (client w)) as [k|] eqn:Hcur; simpl;
    rewrite <- ?app_assoc; simpl; rewrite Htools; simpl;
    unfold set_servers, set_session, push_context, set_stdio_write,
      set_current_server_id; simpl;
    rewrite <- ?app_assoc, ?Hcur; reflexivity.
Qed.

Lemma connect_to_server_fetch_failure_witness :
  List.map (λ item : string * ServerConnection, (item.1, tools item.2))
    (servers (client (snd (connect_to_server "calc" "calc.py" env_no_tool_list
                             World_init))))
  = [("calc", [])].
Proof.
  rewrite (connect_to_server_fetch_failure env_no_tool_list World_init
             "calc" "calc.py" "Connection closed" 0%nat 1%nat 1%nat).
  - reflexivity.
  - apply not_elem_of_nil.
  - reflexivity.
  - reflexivity.
  - reflexivity.
  - reflexivity.
  - reflexivity.
Defined.
